(** * Package-group install / uninstall commands of the RPM admin consumer
      extension ([pulp_rpm/extensions/admin/rpm_admin_consumer/group.py])

    The module is glue between a command-line parser, a REST bindings client
    and a prompt.  The embedding below keeps that shape:

    - Python values that flow through the module (parsed arguments, unit
      descriptors, option bags, task result documents) are [pyval]s, with
      dictionaries as [gmap string pyval];
    - every call that leaves the module (bindings client, prompt, inherited
      [PollingCommand] methods) is recorded as a [call] in a trace;
    - exceptions are an explicit [outcome]; the commands run in the monad
      [M], a trace together with an outcome;
    - what lies outside the module (the replies of the server, the inherited
      polling methods, the type id of package groups, [str]) is a parameter,
      given as a type class. *)

From Stdlib Require Import Ascii.
From stdpp Require Import gmap strings list fin_maps.

Set Warnings "-register-all".

Open Scope string_scope.
Open Scope list_scope.

(** ** Python values *)

Inductive pyval :=
| PNone
| PBool (b : bool)
| PInt (z : Z)
| PStr (s : string)
| PList (l : list pyval)
| PDict (d : gmap string pyval).

(** Truth value testing ([if v:], [not v]). *)
Definition truthy (v : pyval) : bool :=
  match v with
  | PNone => false
  | PBool b => b
  | PInt z => negb (Z.eqb z 0)
  | PStr s => negb (String.eqb s "")
  | PList l => negb (Nat.eqb (length l) 0)
  | PDict d => negb (Nat.eqb (size d) 0)
  end.

(** ** Exceptions and outcomes *)

Inductive exn :=
| NotFoundException
| KeyError (key : string)
| TypeError
| ValueError
| OtherException (name : string).

Inductive outcome (A : Type) :=
| Return (a : A)
| Raise (e : exn).
Arguments Return {A} a.
Arguments Raise {A} e.

Definition outcome_map {A B} (f : A → B) (o : outcome A) : outcome B :=
  match o with
  | Return a => Return (f a)
  | Raise e => Raise e
  end.

(** [except NotFoundException:] *)
Definition is_NotFoundException (e : exn) : bool :=
  match e with
  | NotFoundException => true
  | _ => false
  end.

(** [d[key]] on a dictionary held by the interpreter (such as [**kwargs]). *)
Definition dict_getitem (d : gmap string pyval) (key : string) : outcome pyval :=
  match d !! key with
  | Some v => Return v
  | None => Raise (KeyError key)
  end.

(** [v[key]] with a string key on an arbitrary value: only a dictionary can
    be subscripted that way. *)
Definition getitem (v : pyval) (key : string) : outcome pyval :=
  match v with
  | PDict d => dict_getitem d key
  | _ => Raise TypeError
  end.

(** One-character strings of a string, as [for c in s] yields them. *)
Fixpoint chars (s : string) : list pyval :=
  match s with
  | EmptyString => []
  | String c rest => PStr (String c EmptyString) :: chars rest
  end.

(** [for x in v]: the items the loop visits.  A dictionary yields its keys
    (Python 2 leaves their order unspecified; the map's own order is used). *)
Definition iterate (v : pyval) : outcome (list pyval) :=
  match v with
  | PList l => Return l
  | PStr s => Return (chars s)
  | PDict d => Return (PStr <$> (map_to_list d).*1)
  | PNone | PBool _ | PInt _ => Raise TypeError
  end.

(** ** Objects handed over by the bindings client *)

Record Task := { task_id : pyval; result : pyval }.

Record Response := { response_body : Task }.

(** ** Calls that leave the module *)

Inductive call :=
| call_install (consumer_id : pyval) (units : list pyval) (options : gmap string pyval)
| call_uninstall (consumer_id : pyval) (units : list pyval) (options : gmap string pyval)
| call_get_task (id : pyval)
| call_render_success_message (msg : pyval)
| call_render_failure_message (msg : pyval)
| call_render_title (title : pyval)
| call_render_document_list (docs : pyval) (order filters : list string)
| call_write (msg : pyval) (tag : string)
| call_rejected (task : Task)
| call_postponed (task : Task)
| call_process (id : pyval) (task : Task).

Definition is_get_task (c : call) : bool :=
  match c with
  | call_get_task _ => true
  | _ => false
  end.

(** ** The command monad: calls made so far, and how the code ended *)

Record M (A : Type) := Run { trace : list call; out : outcome A }.
Arguments Run {A} trace out.
Arguments trace {A} m.
Arguments out {A} m.

Definition M_ret {A} (a : A) : M A := Run [] (Return a).

Definition M_bind {A B} (k : A → M B) (m : M A) : M B :=
  match m with
  | Run t (Return a) => let (t', o) := k a in Run (t ++ t') o
  | Run t (Raise e) => Run t (Raise e)
  end.

#[global] Instance M_mret : MRet M := @M_ret.
#[global] Instance M_mbind : MBind M := @M_bind.

(** An interpreter step that makes no call. *)
Definition eval {A} (o : outcome A) : M A := Run [] o.

(** A call across the module boundary, with what it gave back. *)
Definition perform {A} (c : call) (o : outcome A) : M A := Run [c] o.

(** [try: body / except <catches>: handler] *)
Definition try_except {A} (body : M A) (catches : exn → bool) (handler : M A) : M A :=
  match body with
  | Run t (Return _) => body
  | Run t (Raise e) =>
      if catches e
      then let (t', o) := handler in Run (t ++ t') o
      else body
  end.

(** ** What the module imports *)

(** [str(v)], as applied by the [%s] conversion. *)
Class Builtins := {
  py_str : pyval → string;
  py_str_PStr : ∀ s, py_str (PStr s) = s
}.

(** *** The string formatting operator [fmt % arg]

    The scan below covers what the format strings of the module are made
    of: literal text, [%%], [%s] and [%(key)s].  A directive with flags, a
    width, or another conversion is not used by the module; the scan
    rejects it the way Python rejects an unknown conversion. *)

Inductive fmt_state :=
| in_text
| after_percent
| in_key (depth : nat) (key : string)
| after_key.

(** Whether [%(key)s] may look into the right operand, and whether an
    operand that no directive used is an error. *)
Definition is_mapping (v : pyval) : bool :=
  match v with
  | PDict _ | PList _ => true
  | _ => false
  end.

(** [dict] is the right operand; [args] is the value the next conversion
    takes (the operand itself, or what the last key selected), and [unused]
    tells whether it is still to be taken. *)
Fixpoint percent_scan {builtins : Builtins} (fmt : string) (st : fmt_state)
    (dict args : pyval) (unused : bool) : outcome string :=
  match fmt with
  | EmptyString =>
      match st with
      | in_text =>
          if unused && negb (is_mapping dict) then Raise TypeError
          else Return ""
      | _ => Raise ValueError
      end
  | String c fmt =>
      let conversion :=
        if Ascii.eqb c "%"%char then
          outcome_map (String c) (percent_scan fmt in_text dict args unused)
        else if Ascii.eqb c "s"%char then
          if unused then
            outcome_map (String.append (py_str args))
              (percent_scan fmt in_text dict args false)
          else Raise TypeError
        else Raise ValueError in
      match st with
      | in_text =>
          if Ascii.eqb c "%"%char
          then percent_scan fmt after_percent dict args unused
          else outcome_map (String c) (percent_scan fmt in_text dict args unused)
      | after_percent =>
          if Ascii.eqb c "("%char then
            if is_mapping dict
            then percent_scan fmt (in_key 1 "") dict args unused
            else Raise TypeError
          else conversion
      | in_key depth key =>
          if Ascii.eqb c ")"%char then
            match depth with
            | 1 =>
                match getitem dict key with
                | Return v => percent_scan fmt after_key dict v true
                | Raise e => Raise e
                end
            | _ =>
                percent_scan fmt (in_key (pred depth) (key +:+ String c ""))
                  dict args unused
            end
          else if Ascii.eqb c "("%char then
            percent_scan fmt (in_key (S depth) (key +:+ String c ""))
              dict args unused
          else
            percent_scan fmt (in_key depth (key +:+ String c "")) dict args unused
      | after_key => conversion
      end
  end.

Definition percent {builtins : Builtins} (fmt : string) (arg : pyval) : outcome string :=
  percent_scan fmt in_text arg arg true.

(** [gettext.gettext], imported as [_]: no catalogue is bound by the module,
    so a message id is its own translation. *)
Definition gettext (msgid : string) : string := msgid.

(** [pulp_rpm.common.ids]: the module is not among the sources at hand, so
    the type id is a parameter. *)
Class Ids := { TYPE_ID_PKG_GROUP : string }.

(** The bindings client ([self.context.server]): what each request gives
    back. *)
Class Server := {
  install_reply : pyval → list pyval → gmap string pyval → outcome Response;
  uninstall_reply : pyval → list pyval → gmap string pyval → outcome Response;
  get_task_reply : pyval → outcome Response
}.

(** The methods inherited from [command.PollingCommand], whose module is
    not among the sources at hand: what each of them gives back is a
    parameter.  [process] is the step that polls the task until it has
    completed. *)
Class Polling := {
  rejected_result : Task → outcome bool;
  postponed_result : Task → outcome bool;
  process_result : pyval → Task → outcome ()
}.

Module server.
Module consumer_content.
Definition install {srv : Server} (consumer_id : pyval) (units : list pyval)
    (options : gmap string pyval) : M Response :=
  perform (call_install consumer_id units options)
    (install_reply consumer_id units options).

Definition uninstall {srv : Server} (consumer_id : pyval) (units : list pyval)
    (options : gmap string pyval) : M Response :=
  perform (call_uninstall consumer_id units options)
    (uninstall_reply consumer_id units options).
End consumer_content.

Module tasks.
Definition get_task {srv : Server} (id : pyval) : M Response :=
  perform (call_get_task id) (get_task_reply id).
End tasks.
End server.

(** The prompt ([self.context.prompt]) only prints. *)
Module prompt.
Definition render_success_message (msg : pyval) : M () :=
  perform (call_render_success_message msg) (Return ()).

Definition render_failure_message (msg : pyval) : M () :=
  perform (call_render_failure_message msg) (Return ()).

Definition render_title (title : pyval) : M () :=
  perform (call_render_title title) (Return ()).

Definition render_document_list (docs : pyval) (order filters : list string) : M () :=
  perform (call_render_document_list docs order filters) (Return ()).

Definition write (msg : pyval) (tag : string) : M () :=
  perform (call_write msg tag) (Return ()).
End prompt.

Module PollingCommand.
Definition rejected {polling : Polling} (task : Task) : M bool :=
  perform (call_rejected task) (rejected_result task).

Definition postponed {polling : Polling} (task : Task) : M bool :=
  perform (call_postponed task) (postponed_result task).

Definition process {polling : Polling} (id : pyval) (task : Task) : M () :=
  perform (call_process id task) (process_result id task).
End PollingCommand.

(** ** Command objects ([PulpCliCommand]): the options a command declares

    [PulpCliCommand] belongs to the client library of the platform.  A
    command object is kept as its name, description, method and the options
    declared on it, in the order of their declaration. *)

Record CliOption := {
  opt_name : string;
  opt_description : string;
  opt_required : bool;
  opt_allow_multiple : bool;
  opt_aliases : list string;
  opt_is_flag : bool
}.

Record Command := {
  cmd_name : string;
  cmd_description : string;
  cmd_method : gmap string pyval → M ();
  cmd_options : list CliOption
}.

Module PulpCliCommand.
(** [super().__init__(name, description, method, context)] *)
Definition __init__ (name description : string)
    (method : gmap string pyval → M ()) : Command :=
  {| cmd_name := name; cmd_description := description;
     cmd_method := method; cmd_options := [] |}.

Definition add_option (self : Command) (o : CliOption) : Command :=
  {| cmd_name := cmd_name self; cmd_description := cmd_description self;
     cmd_method := cmd_method self; cmd_options := cmd_options self ++ [o] |}.

(** [create_option(name, description, aliases=None, required=False,
    allow_multiple=False)] *)
Definition create_option (self : Command) (name description : string)
    (required allow_multiple : bool) (aliases : list string) : Command :=
  add_option self
    {| opt_name := name; opt_description := description;
       opt_required := required; opt_allow_multiple := allow_multiple;
       opt_aliases := aliases; opt_is_flag := false |}.

(** [create_flag(name, description, aliases=None)] *)
Definition create_flag (self : Command) (name description : string) : Command :=
  add_option self
    {| opt_name := name; opt_description := description;
       opt_required := false; opt_allow_multiple := false;
       opt_aliases := []; opt_is_flag := true |}.
End PulpCliCommand.

(** ** [class Install(PollingCommand)] *)

Module Install.
Section Install.
Context {builtins : Builtins} {ids : Ids} {srv : Server} {polling : Polling}.

Definition install (consumer_id : pyval) (units : list pyval)
    (options : gmap string pyval) : M () :=
  try_except
    (response ← server.consumer_content.install consumer_id units options;
     let task := response_body response in
     msg ← eval (percent (gettext "Install task created with id [%(id)s]")
                         (PDict {[ "id" := task_id task ]}));
     prompt.render_success_message (PStr msg);;
     response ← server.tasks.get_task (task_id task);
     let task := response_body response in
     r ← PollingCommand.rejected task;
     if r : bool then mret () else
     p ← PollingCommand.postponed task;
     if p : bool then mret () else
     PollingCommand.process consumer_id task)
    is_NotFoundException
    (msg ← eval (percent (gettext "Consumer [%s] not found") consumer_id);
     prompt.write (PStr msg) "not-found").

Definition run (kwargs : gmap string pyval) : M () :=
  consumer_id ← eval (dict_getitem kwargs "consumer-id");
  no_commit ← eval (dict_getitem kwargs "no-commit");
  let apply := PBool (negb (truthy no_commit)) in
  importkeys ← eval (dict_getitem kwargs "import-keys");
  reboot ← eval (dict_getitem kwargs "reboot");
  let units : list pyval := [] in
  let options : gmap string pyval :=
    {[ "apply" := apply; "importkeys" := importkeys; "reboot" := reboot ]} in
  names ← eval (dict_getitem kwargs "name");
  names ← eval (iterate names);
  let units :=
    foldl (λ (units : list pyval) name,
             let unit_key : gmap string pyval := {[ "name" := name ]} in
             let unit : gmap string pyval :=
               {[ "type_id" := PStr TYPE_ID_PKG_GROUP;
                  "unit_key" := PDict unit_key ]} in
             units ++ [PDict unit]) units names in
  install consumer_id units options.

Definition succeeded (id : pyval) (task : Task) : M () :=
  status ← eval (getitem (result task) "status");
  if negb (truthy status) then
    let msg := "Install failed" in
    details ← eval (getitem (result task) "details");
    details ← eval (getitem details TYPE_ID_PKG_GROUP);
    details ← eval (getitem details "details");
    prompt.render_failure_message (PStr (gettext msg));;
    message ← eval (getitem details "message");
    prompt.render_failure_message message;;
    mret ()
  else
    let msg := "Install Succeeded" in
    prompt.render_success_message (PStr (gettext msg));;
    details ← eval (getitem (result task) "details");
    details ← eval (getitem details TYPE_ID_PKG_GROUP);
    details ← eval (getitem details "details");
    let filter := ["name"; "version"; "arch"; "repoid"] in
    resolved ← eval (getitem details "resolved");
    (if truthy resolved then
       prompt.render_title (PStr "Installed");;
       prompt.render_document_list resolved filter filter
     else
       let msg := "Packages for groups already installed" in
       prompt.render_success_message (PStr (gettext msg)));;
    deps ← eval (getitem details "deps");
    if truthy deps then
      prompt.render_title (PStr "Installed for dependency");;
      prompt.render_document_list deps filter filter
    else mret ().

Definition __init__ : Command :=
  let self :=
    PulpCliCommand.__init__ "run"
      (gettext "triggers an immediate package-group install on a consumer") run in
  let self :=
    PulpCliCommand.create_option self "--consumer-id"
      (gettext "identifies the consumer") true false [] in
  let self :=
    PulpCliCommand.create_flag self "--no-commit"
      (gettext "transaction not committed") in
  let self :=
    PulpCliCommand.create_flag self "--reboot"
      (gettext "reboot after successful transaction") in
  let self :=
    PulpCliCommand.create_option self "--name"
      (gettext "package group name; may repeat for multiple groups")
      true true ["-n"] in
  let self :=
    PulpCliCommand.create_flag self "--import-keys"
      (gettext "import GPG keys as needed") in
  self.

End Install.
End Install.

(** ** [class Uninstall(PollingCommand)] *)

Module Uninstall.
Section Uninstall.
Context {builtins : Builtins} {ids : Ids} {srv : Server} {polling : Polling}.

Definition uninstall (consumer_id : pyval) (units : list pyval)
    (options : gmap string pyval) : M () :=
  try_except
    (response ← server.consumer_content.uninstall consumer_id units options;
     let task := response_body response in
     msg ← eval (percent (gettext "Uninstall task created with id[%(id)s]")
                         (PDict {[ "id" := task_id task ]}));
     prompt.render_success_message (PStr msg);;
     response ← server.tasks.get_task (task_id task);
     let task := response_body response in
     r ← PollingCommand.rejected task;
     if r : bool then mret () else
     p ← PollingCommand.postponed task;
     if p : bool then mret () else
     PollingCommand.process consumer_id task)
    is_NotFoundException
    (msg ← eval (percent (gettext "Consumer [%s] not found") consumer_id);
     prompt.write (PStr msg) "not-found").

Definition run (kwargs : gmap string pyval) : M () :=
  consumer_id ← eval (dict_getitem kwargs "consumer-id");
  no_commit ← eval (dict_getitem kwargs "no-commit");
  let apply := PBool (negb (truthy no_commit)) in
  reboot ← eval (dict_getitem kwargs "reboot");
  let units : list pyval := [] in
  let options : gmap string pyval :=
    {[ "apply" := apply; "reboot" := reboot ]} in
  names ← eval (dict_getitem kwargs "name");
  names ← eval (iterate names);
  let units :=
    foldl (λ (units : list pyval) name,
             let unit_key : gmap string pyval := {[ "name" := name ]} in
             let unit : gmap string pyval :=
               {[ "type_id" := PStr TYPE_ID_PKG_GROUP;
                  "unit_key" := PDict unit_key ]} in
             units ++ [PDict unit]) units names in
  uninstall consumer_id units options.

Definition succeeded (id : pyval) (task : Task) : M () :=
  status ← eval (getitem (result task) "status");
  if negb (truthy status) then
    let msg := "Uninstall Failed" in
    details ← eval (getitem (result task) "details");
    details ← eval (getitem details TYPE_ID_PKG_GROUP);
    details ← eval (getitem details "details");
    prompt.render_failure_message (PStr (gettext msg));;
    message ← eval (getitem details "message");
    prompt.render_failure_message message;;
    mret ()
  else
    let msg := "Uninstall Succeeded" in
    prompt.render_success_message (PStr (gettext msg));;
    details ← eval (getitem (result task) "details");
    details ← eval (getitem details TYPE_ID_PKG_GROUP);
    details ← eval (getitem details "details");
    let filter := ["name"; "version"; "arch"; "repoid"] in
    resolved ← eval (getitem details "resolved");
    (if truthy resolved then
       prompt.render_title (PStr "Uninstalled");;
       prompt.render_document_list resolved filter filter
     else
       let msg := "No matching packages found to uninstall" in
       prompt.render_success_message (PStr (gettext msg)));;
    deps ← eval (getitem details "deps");
    if truthy deps then
      prompt.render_title (PStr "Uninstalled for dependency");;
      prompt.render_document_list deps filter filter
    else mret ().

Definition __init__ : Command :=
  let self :=
    PulpCliCommand.__init__ "run"
      (gettext "triggers an immediate package-group removal on a consumer") run in
  let self :=
    PulpCliCommand.create_option self "--consumer-id"
      (gettext "identifies the consumer") true false [] in
  let self :=
    PulpCliCommand.create_flag self "--no-commit"
      (gettext "transaction not committed") in
  let self :=
    PulpCliCommand.create_flag self "--reboot"
      (gettext "reboot after successful transaction") in
  let self :=
    PulpCliCommand.create_option self "--name"
      (gettext "package group name; may repeat for multiple groups")
      true true ["-n"] in
  self.

End Uninstall.
End Uninstall.

(** ** Sections ([PulpCliSection]) and the section tree of the module

    [PulpCliSection] belongs to the client library of the platform.  A
    section is kept as its name, description, and the subsections and
    commands added to it, in the order in which they were added. *)

Inductive CliSection := mkCliSection {
  sec_name : string;
  sec_description : string;
  sec_subsections : list CliSection;
  sec_commands : list Command
}.

Module PulpCliSection.
(** [super().__init__(name, description)] *)
Definition __init__ (name description : string) : CliSection :=
  {| sec_name := name; sec_description := description;
     sec_subsections := []; sec_commands := [] |}.

Definition add_subsection (self section : CliSection) : CliSection :=
  {| sec_name := sec_name self; sec_description := sec_description self;
     sec_subsections := sec_subsections self ++ [section];
     sec_commands := sec_commands self |}.

Definition add_command (self : CliSection) (command : Command) : CliSection :=
  {| sec_name := sec_name self; sec_description := sec_description self;
     sec_subsections := sec_subsections self;
     sec_commands := sec_commands self ++ [command] |}.
End PulpCliSection.

(** [pulp_rpm.extension.admin.content_schedules]: the module is not among
    the sources at hand, so the command that each of its classes builds for
    an action (and, for the create command, a content type) is a
    parameter. *)
Class ContentSchedules := {
  ContentListScheduleCommand : pyval → Command;
  ContentCreateScheduleCommand : pyval → pyval → Command;
  ContentDeleteScheduleCommand : pyval → Command;
  ContentUpdateScheduleCommand : pyval → Command;
  ContentNextRunCommand : pyval → Command
}.

(** [class SchedulesSection(PulpCliSection)] *)
Module SchedulesSection.
Section SchedulesSection.
Context {builtins : Builtins} {ids : Ids} {schedules : ContentSchedules}.

Definition __init__ (action : pyval) : M CliSection :=
  description ←
    eval (percent "manage consumer package-group %s schedules" action);
  let self := PulpCliSection.__init__ "schedules" (gettext description) in
  let self :=
    PulpCliSection.add_command self (ContentListScheduleCommand action) in
  let self :=
    PulpCliSection.add_command self
      (ContentCreateScheduleCommand action (PStr TYPE_ID_PKG_GROUP)) in
  let self :=
    PulpCliSection.add_command self (ContentDeleteScheduleCommand action) in
  let self :=
    PulpCliSection.add_command self (ContentUpdateScheduleCommand action) in
  let self :=
    PulpCliSection.add_command self (ContentNextRunCommand action) in
  mret self.

End SchedulesSection.
End SchedulesSection.

(** [class InstallSection(PulpCliSection)] *)
Module InstallSection.
Section InstallSection.
Context {builtins : Builtins} {ids : Ids} {srv : Server} {polling : Polling}
  {schedules : ContentSchedules}.

Definition __init__ : M CliSection :=
  let self :=
    PulpCliSection.__init__ "install"
      (gettext "run or schedule a package-group installation task") in
  section ← SchedulesSection.__init__ (PStr "install");
  let self := PulpCliSection.add_subsection self section in
  let self := PulpCliSection.add_command self Install.__init__ in
  mret self.

End InstallSection.
End InstallSection.

(** [class UninstallSection(PulpCliSection)] *)
Module UninstallSection.
Section UninstallSection.
Context {builtins : Builtins} {ids : Ids} {srv : Server} {polling : Polling}
  {schedules : ContentSchedules}.

Definition __init__ : M CliSection :=
  let self :=
    PulpCliSection.__init__ "uninstall"
      (gettext "run or schedule a package-group removal task") in
  section ← SchedulesSection.__init__ (PStr "uninstall");
  let self := PulpCliSection.add_subsection self section in
  let self := PulpCliSection.add_command self Uninstall.__init__ in
  mret self.

End UninstallSection.
End UninstallSection.

(** [class GroupSection(PulpCliSection)] *)
Module GroupSection.
Section GroupSection.
Context {builtins : Builtins} {ids : Ids} {srv : Server} {polling : Polling}
  {schedules : ContentSchedules}.

Definition __init__ : M CliSection :=
  let self :=
    PulpCliSection.__init__ "package-group"
      (gettext "package-group installation management") in
  foldl (λ (self : M CliSection) (Section : M CliSection),
           self ← self;
           section ← Section;
           mret (PulpCliSection.add_subsection self section))
        (mret self)
        [InstallSection.__init__; UninstallSection.__init__].

End GroupSection.
End GroupSection.

(** ** Vocabulary of the properties *)

(** [v[k1][k2]...[kn]] *)
Fixpoint getpath (v : pyval) (path : list string) : outcome pyval :=
  match path with
  | [] => Return v
  | key :: path =>
      match getitem v key with
      | Return v' => getpath v' path
      | Raise e => Raise e
      end
  end.

(** The content requests (consumer, units, options) found in a trace. *)
Definition request_of (c : call) : option (pyval * list pyval * gmap string pyval) :=
  match c with
  | call_install consumer_id units options
  | call_uninstall consumer_id units options => Some (consumer_id, units, options)
  | _ => None
  end.

Definition requests {A} (m : M A) : list (pyval * list pyval * gmap string pyval) :=
  omap request_of (trace m).

(** The options bag of the claim about [run]: the three booleans. *)
Definition sends_options (m : M ()) (apply importkeys reboot : bool) : Prop :=
  ∃ consumer_id units options,
    requests m = [(consumer_id, units, options)] ∧
    options !! "apply" = Some (PBool apply) ∧
    options !! "importkeys" = Some (PBool importkeys) ∧
    options !! "reboot" = Some (PBool reboot).

(** What a command shows on the command line: options with their
    attributes, and flags; the help texts are left out. *)
Inductive surface_item :=
| Opt (name : string) (required repeatable : bool) (aliases : list string)
| Flag (name : string).

Definition surface_of (o : CliOption) : surface_item :=
  if opt_is_flag o then Flag (opt_name o)
  else Opt (opt_name o) (opt_required o) (opt_allow_multiple o) (opt_aliases o).

Definition surface (cmd : Command) : list surface_item :=
  surface_of <$> cmd_options cmd.

Definition run_surface : list surface_item :=
  [ Opt "--consumer-id" true false [];
    Opt "--name" true true ["-n"];
    Flag "--no-commit";
    Flag "--reboot";
    Flag "--import-keys" ].

Definition run_surface_without_keys : list surface_item :=
  [ Opt "--consumer-id" true false [];
    Opt "--name" true true ["-n"];
    Flag "--no-commit";
    Flag "--reboot" ].

(** [task.result['status']] and
    [task.result['details'][TYPE_ID_PKG_GROUP]['details'][key]]. *)
Definition status_of (task : Task) : outcome pyval :=
  getpath (result task) ["status"].

Definition group_detail {ids : Ids} (task : Task) (key : string) : outcome pyval :=
  getpath (result task) ["details"; TYPE_ID_PKG_GROUP; "details"; key].

(** The columns both result tables are ordered and filtered by. *)
Definition columns : list string := ["name"; "version"; "arch"; "repoid"].

(** Some call made inside the [try] block of [install] / [uninstall] raises
    [e]: the content request (whose reply is [content_reply]), the status
    fetch, or one of the inherited polling methods, which talk to the server
    in turn.  Each call is reached only when the ones before it returned and
    did not end the command. *)
Definition call_raises {srv : Server} {polling : Polling}
    (content_reply : outcome Response) (consumer_id : pyval) (e : exn) : Prop :=
  content_reply = Raise e ∨
  ∃ r, content_reply = Return r ∧
    (get_task_reply (task_id (response_body r)) = Raise e ∨
     ∃ r', get_task_reply (task_id (response_body r)) = Return r' ∧
       (rejected_result (response_body r') = Raise e ∨
        (rejected_result (response_body r') = Return false ∧
         (postponed_result (response_body r') = Raise e ∨
          (postponed_result (response_body r') = Return false ∧
           process_result consumer_id (response_body r') = Raise e))))).

(** The shape of a command run whose content request was accepted: the
    request, the message about the created task, one status fetch, and then
    the gate in front of [process].  [rest] is what follows the status
    fetch: it holds no further fetch or content request, [process] is in it
    only for a task that is neither rejected nor postponed, and for a
    rejected or a postponed task it is the check alone, after which the
    command returns. *)
Definition fetch_then_gate {srv : Server} {polling : Polling}
    (m : M ()) (request created : call) (id : pyval) : Prop :=
  ∃ rest,
    trace m = request :: created :: call_get_task id :: rest ∧
    (∀ c, c ∈ rest → is_get_task c = false ∧ request_of c = None) ∧
    (∀ id' task, call_process id' task ∈ rest →
       rejected_result task = Return false ∧
       postponed_result task = Return false) ∧
    (∀ r', get_task_reply id = Return r' →
       rejected_result (response_body r') = Return true →
       rest = [call_rejected (response_body r')] ∧ out m = Return ()) ∧
    (∀ r', get_task_reply id = Return r' →
       rejected_result (response_body r') = Return false →
       postponed_result (response_body r') = Return true →
       rest = [call_rejected (response_body r');
               call_postponed (response_body r')] ∧
       out m = Return ()).

(** *** Further vocabulary: arguments, call order, section lookups *)

(** The arguments the two [run] methods read, in the order in which they
    read them. *)
Definition install_keys : list string :=
  ["consumer-id"; "no-commit"; "import-keys"; "reboot"; "name"].

Definition uninstall_keys : list string :=
  ["consumer-id"; "no-commit"; "reboot"; "name"].

(** The first of [keys] that [kwargs] has no value for. *)
Definition first_missing (kwargs : gmap string pyval) (keys : list string) : option string :=
  List.find (λ key, match kwargs !! key with None => true | Some _ => false end)
    keys.

(** The key under which the parser hands over the value of an option: the
    option name without its leading dashes (['--consumer-id'] is read as
    [kwargs['consumer-id']]). *)
Fixpoint kwarg_key (option_name : string) : string :=
  match option_name with
  | String c rest => if Ascii.eqb c "-"%char then kwarg_key rest else option_name
  | EmptyString => EmptyString
  end.



(** The descriptor both [run] methods build for one item of --name. *)
Definition unit_descriptor {ids : Ids} (name : pyval) : pyval :=
  PDict {[ "type_id" := PStr TYPE_ID_PKG_GROUP;
           "unit_key" := PDict {[ "name" := name ]} ]}.



(** ** A concrete environment, for running the commands on examples *)

Module Sample.

#[export] Instance builtins : Builtins :=
  {| py_str v := match v with PStr s => s | _ => "" end;
     py_str_PStr s := eq_refl |}.

#[export] Instance ids : Ids := {| TYPE_ID_PKG_GROUP := "package_group" |}.

Definition package (name : string) : pyval :=
  PDict {[ "name" := PStr name; "version" := PStr "1.0"; "arch" := PStr "noarch";
           "repoid" := PStr "base" ]}.

(** A task result document as the agent reports it. *)
Definition report (status : bool) (details : gmap string pyval) : pyval :=
  let group : gmap string pyval :=
    {[ "status" := PBool status; "details" := PDict details ]} in
  let by_type : gmap string pyval := {[ "package_group" := PDict group ]} in
  PDict {[ "status" := PBool status; "details" := PDict by_type ]}.

Definition task_running : Task := {| task_id := PStr "t-1"; result := PNone |}.

Definition task_failed : Task :=
  {| task_id := PStr "t-1";
     result := report false {[ "message" := PStr "no such group" ]} |}.

Definition task_done : Task :=
  {| task_id := PStr "t-1";
     result := report true {[ "resolved" := PList [package "httpd"];
                              "deps" := PList [package "apr"] ]} |}.

Definition task_nothing : Task :=
  {| task_id := PStr "t-1";
     result := report true {[ "resolved" := PList []; "deps" := PList [] ]} |}.

(** A server that accepts every request. *)
#[export] Instance server_ok : Server :=
  {| install_reply _ _ _ := Return {| response_body := task_running |};
     uninstall_reply _ _ _ := Return {| response_body := task_running |};
     get_task_reply _ := Return {| response_body := task_running |} |}.

(** A task that is neither rejected nor postponed and runs to its end. *)
#[export] Instance polling_ok : Polling :=
  {| rejected_result _ := Return false;
     postponed_result _ := Return false;
     process_result _ _ := Return () |}.

(** A task that the server rejects. *)
Definition polling_rejected : Polling :=
  {| rejected_result _ := Return true;
     postponed_result _ := Return false;
     process_result _ _ := Return () |}.

(** A server that knows no consumer. *)
Definition server_unknown : Server :=
  {| install_reply _ _ _ := Raise NotFoundException;
     uninstall_reply _ _ _ := Raise NotFoundException;
     get_task_reply _ := Raise NotFoundException |}.

(** A server that cannot be reached. *)
Definition server_down : Server :=
  {| install_reply _ _ _ := Raise (OtherException "ConnectionException");
     uninstall_reply _ _ _ := Raise (OtherException "ConnectionException");
     get_task_reply _ := Raise (OtherException "ConnectionException") |}.

(** [--consumer-id c1 --reboot -n web -n db --import-keys] *)
Definition kwargs_install : gmap string pyval :=
  {[ "consumer-id" := PStr "c1"; "no-commit" := PBool false;
     "reboot" := PBool true; "name" := PList [PStr "web"; PStr "db"];
     "import-keys" := PBool true ]}.

(** [--consumer-id c1 --reboot -n web -n db] *)
Definition kwargs_uninstall : gmap string pyval :=
  {[ "consumer-id" := PStr "c1"; "no-commit" := PBool false;
     "reboot" := PBool true; "name" := PList [PStr "web"; PStr "db"] ]}.

End Sample.

(** * Properties *)

(** ** Running the monad *)

Section monad_lemmas.
Context {A B : Type}.
Implicit Types (k : A → M B) (c : call) (e : exn).

Lemma bind_eval_Return a k : eval (Return a) ≫= k = k a.
Proof. unfold mbind, M_mbind, M_bind; simpl. by destruct (k a). Qed.

Lemma bind_eval_Raise e k : eval (Raise e) ≫= k = eval (Raise e).
Proof. reflexivity. Qed.

Lemma bind_perform_Return c a k :
  perform c (Return a) ≫= k = Run (c :: trace (k a)) (out (k a)).
Proof. unfold mbind, M_mbind, M_bind; simpl. by destruct (k a). Qed.

Lemma bind_perform_Raise c e k : perform c (Raise e) ≫= k = Run [c] (Raise e).
Proof. reflexivity. Qed.

(** The calls of the first part are never lost, however the rest ends. *)
Lemma trace_bind_prefix (m : M A) k : trace m `prefix_of` trace (m ≫= k).
Proof.
  destruct m as [t [a|e]]; unfold mbind, M_mbind, M_bind; simpl.
  - destruct (k a) as [t' o]. by apply prefix_app_r.
  - done.
Qed.
End monad_lemmas.

Section monad_laws.
Context {A B C : Type}.

Lemma bind_ret_l (a : A) (k : A → M B) : mret a ≫= k = k a.
Proof. unfold mbind, M_mbind, M_bind; simpl. by destruct (k a). Qed.

Lemma bind_ret_r (m : M A) : m ≫= mret = m.
Proof.
  destruct m as [t [a|e]]; unfold mbind, M_mbind, M_bind; simpl; [|done].
  by rewrite app_nil_r.
Qed.

Lemma bind_assoc (m : M A) (k : A → M B) (h : B → M C) :
  (m ≫= k) ≫= h = m ≫= (λ a, k a ≫= h).
Proof.
  destruct m as [t [a|e]]; unfold mbind, M_mbind, M_bind; simpl; [|done].
  destruct (k a) as [t' [b|e]]; simpl; [|done].
  destruct (h b) as [t'' o]. by rewrite app_assoc.
Qed.
End monad_laws.

(** ** [try] / [except] *)

Section try_except_lemmas.
Context {A : Type}.
Implicit Types (body handler : M A) (catches : exn → bool).

Lemma try_except_Return body catches handler a :
  out body = Return a → try_except body catches handler = body.
Proof. destruct body as [t [a'|e]]; simpl; [done|discriminate]. Qed.

Lemma try_except_caught body catches handler e :
  out body = Raise e → catches e = true →
  try_except body catches handler =
    Run (trace body ++ trace handler) (out handler).
Proof.
  destruct body as [t [a|e']], handler as [t' o]; simpl;
    intros Hout Hcatch; [discriminate|].
  injection Hout as ->. by rewrite Hcatch.
Qed.

Lemma try_except_uncaught body catches handler e :
  out body = Raise e → catches e = false →
  try_except body catches handler = body.
Proof.
  destruct body as [t [a|e']]; simpl; intros Hout Hcatch; [discriminate|].
  injection Hout as ->. by rewrite Hcatch.
Qed.
End try_except_lemmas.

Lemma getpath_cons v key path x :
  getpath v (key :: path) = Return x →
  ∃ v', getitem v key = Return v' ∧ getpath v' path = Return x.
Proof. simpl. destruct (getitem v key); [eauto | discriminate]. Qed.

Lemma getpath_nil v x : getpath v [] = Return x → x = v.
Proof. simpl. congruence. Qed.

Lemma dict_getitem_Some (d : gmap string pyval) key v :
  d !! key = Some v → dict_getitem d key = Return v.
Proof. unfold dict_getitem. by intros ->. Qed.

Lemma truthy_PList l : truthy (PList l) = true ↔ l ≠ [].
Proof. destruct l; simpl; split; done. Qed.

(** The loop of both [run] methods appends one item per name. *)
Lemma foldl_append {X Y} (f : X → Y) (xs : list X) (acc : list Y) :
  foldl (λ acc x, acc ++ [f x]) acc xs = acc ++ (f <$> xs).
Proof.
  revert acc. induction xs as [|x xs IH]; intros acc; simpl.
  - by rewrite app_nil_r.
  - by rewrite IH, <- app_assoc.
Qed.

(** Break a path lookup into its single subscripts. *)
Ltac split_path H :=
  repeat match type of H with
  | getpath _ (_ :: _) = Return _ =>
      let v := fresh "v" in
      let E := fresh "E" in
      apply getpath_cons in H as (v & E & H)
  | getpath _ [] = Return _ => apply getpath_nil in H; subst
  | _ => progress unfold status_of, group_detail in H
  end.

(** Run the interpreter steps whose result is known from the context. *)
Ltac known_steps :=
  repeat first
    [ rewrite bind_eval_Return
    | match goal with
      | E : getitem ?v ?k = Return _ |- context [getitem ?v ?k] => rewrite E
      | E : dict_getitem ?v ?k = Return _ |- context [dict_getitem ?v ?k] => rewrite E
      | E : truthy ?v = _ |- context [truthy ?v] => rewrite E
      end
    | progress cbn [getpath negb iterate] ].

Ltac unfold_calls :=
  unfold server.consumer_content.install, server.consumer_content.uninstall,
    server.tasks.get_task, PollingCommand.rejected, PollingCommand.postponed,
    PollingCommand.process, prompt.render_success_message,
    prompt.render_failure_message, prompt.render_title,
    prompt.render_document_list, prompt.write,
    try_except, eval, mbind, M_mbind, M_bind, mret, M_mret, M_ret, perform.

(** Take a membership in an explicit trace apart. *)
Ltac split_elem_of :=
  repeat match goal with
  | H : _ ∈ _ :: _ |- _ => apply elem_of_cons in H as [H|H]
  | H : _ ∈ [] |- _ => by apply elem_of_nil in H
  end.

(** ** What [succeeded] renders *)

Section succeeded.
Context {ids : Ids}.
Implicit Types (id : pyval) (task : Task).

Lemma install_succeeded_failed id task status message :
  status_of task = Return status →
  truthy status = false →
  group_detail task "message" = Return message →
  Install.succeeded id task =
    Run [call_render_failure_message (PStr "Install failed");
         call_render_failure_message message] (Return ()).
Proof.
  intros Hs Hf Hm. split_path Hs. split_path Hm.
  unfold Install.succeeded. known_steps. reflexivity.
Qed.

Lemma uninstall_succeeded_failed id task status message :
  status_of task = Return status →
  truthy status = false →
  group_detail task "message" = Return message →
  Uninstall.succeeded id task =
    Run [call_render_failure_message (PStr "Uninstall Failed");
         call_render_failure_message message] (Return ()).
Proof.
  intros Hs Hf Hm. split_path Hs. split_path Hm.
  unfold Uninstall.succeeded. known_steps. reflexivity.
Qed.

(** The whole success branch of [Install.succeeded], call by call. *)
Lemma install_succeeded_trace id task status resolved :
  status_of task = Return status →
  truthy status = true →
  group_detail task "resolved" = Return resolved →
  Install.succeeded id task =
    Run (call_render_success_message (PStr "Install Succeeded")
         :: (if truthy resolved
             then [call_render_title (PStr "Installed");
                   call_render_document_list resolved columns columns]
             else [call_render_success_message
                     (PStr "Packages for groups already installed")])
         ++ match group_detail task "deps" with
            | Return deps =>
                if truthy deps
                then [call_render_title (PStr "Installed for dependency");
                      call_render_document_list deps columns columns]
                else []
            | Raise _ => []
            end)
        (match group_detail task "deps" with
         | Return _ => Return ()
         | Raise e => Raise e
         end).
Proof.
  intros Hs Ht Hr. split_path Hs. split_path Hr.
  unfold Install.succeeded, group_detail. known_steps.
  destruct (getitem _ "deps") as [deps|e]; known_steps;
    repeat match goal with |- context [truthy ?x] => destruct (truthy x) end;
    reflexivity.
Qed.

Lemma uninstall_succeeded_trace id task status resolved :
  status_of task = Return status →
  truthy status = true →
  group_detail task "resolved" = Return resolved →
  Uninstall.succeeded id task =
    Run (call_render_success_message (PStr "Uninstall Succeeded")
         :: (if truthy resolved
             then [call_render_title (PStr "Uninstalled");
                   call_render_document_list resolved columns columns]
             else [call_render_success_message
                     (PStr "No matching packages found to uninstall")])
         ++ match group_detail task "deps" with
            | Return deps =>
                if truthy deps
                then [call_render_title (PStr "Uninstalled for dependency");
                      call_render_document_list deps columns columns]
                else []
            | Raise _ => []
            end)
        (match group_detail task "deps" with
         | Return _ => Return ()
         | Raise e => Raise e
         end).
Proof.
  intros Hs Ht Hr. split_path Hs. split_path Hr.
  unfold Uninstall.succeeded, group_detail. known_steps.
  destruct (getitem _ "deps") as [deps|e]; known_steps;
    repeat match goal with |- context [truthy ?x] => destruct (truthy x) end;
    reflexivity.
Qed.

End succeeded.

(** ** The messages of [install] and [uninstall] *)

Section messages.
Context {builtins : Builtins}.

Lemma percent_not_found consumer_id :
  percent (gettext "Consumer [%s] not found") consumer_id =
    Return ("Consumer [" +:+ py_str consumer_id +:+ "] not found").
Proof. reflexivity. Qed.

Lemma percent_not_found_str (consumer_id : string) :
  percent (gettext "Consumer [%s] not found") (PStr consumer_id) =
    Return ("Consumer [" +:+ consumer_id +:+ "] not found").
Proof. by rewrite percent_not_found, py_str_PStr. Qed.

Lemma percent_install_created id :
  percent (gettext "Install task created with id [%(id)s]")
    (PDict {[ "id" := id ]}) =
    Return ("Install task created with id [" +:+ py_str id +:+ "]").
Proof. reflexivity. Qed.

Lemma percent_uninstall_created id :
  percent (gettext "Uninstall task created with id[%(id)s]")
    (PDict {[ "id" := id ]}) =
    Return ("Uninstall task created with id[" +:+ py_str id +:+ "]").
Proof. reflexivity. Qed.

End messages.

(** Replace the formatting of a message by its result. *)
Ltac format_step :=
  match goal with
  | |- context [percent (gettext "Consumer [%s] not found") ?c] =>
      rewrite (percent_not_found c)
  | |- context [percent (gettext "Install task created with id [%(id)s]")
                  (PDict {[ "id" := ?id ]})] =>
      rewrite (percent_install_created id)
  | |- context [percent (gettext "Uninstall task created with id[%(id)s]")
                  (PDict {[ "id" := ?id ]})] =>
      rewrite (percent_uninstall_created id)
  end.

(** Split on what a call gives back. *)
Ltac split_reply :=
  match goal with
  | |- context [install_reply ?c ?u ?o] =>
      destruct (install_reply c u o) as [?r|?e] eqn:?
  | |- context [uninstall_reply ?c ?u ?o] =>
      destruct (uninstall_reply c u o) as [?r|?e] eqn:?
  | |- context [get_task_reply ?id] =>
      destruct (get_task_reply id) as [?r|?e] eqn:?
  | |- context [rejected_result ?t] =>
      destruct (rejected_result t) as [[]|?e] eqn:?
  | |- context [postponed_result ?t] =>
      destruct (postponed_result t) as [[]|?e] eqn:?
  | |- context [process_result ?c ?t] =>
      destruct (process_result c t) as [[]|?e] eqn:?
  | |- context [is_NotFoundException ?e] =>
      destruct (is_NotFoundException e) eqn:?
  end.

(** ** What [install] and [uninstall] do with the server *)

Section commands.
Context {builtins : Builtins} {ids : Ids} {srv : Server} {polling : Polling}.
Implicit Types (consumer_id : pyval) (units : list pyval)
  (options kwargs : gmap string pyval) (e : exn) (r : Response).

(** Unfold a command down to its calls, use the replies that are known and
    split on the others. *)
Ltac run_command :=
  unfold Install.install, Uninstall.uninstall; unfold_calls;
  repeat first
    [ format_step
    | match goal with E : ?x = _ |- context [?x] => rewrite E end
    | progress cbn [trace out app is_NotFoundException]
    | split_reply ].

(** *** One content request per command *)

Lemma install_requests consumer_id units options :
  requests (Install.install consumer_id units options) =
    [(consumer_id, units, options)].
Proof. unfold requests. run_command; reflexivity. Qed.

Lemma uninstall_requests consumer_id units options :
  requests (Uninstall.uninstall consumer_id units options) =
    [(consumer_id, units, options)].
Proof. unfold requests. run_command; reflexivity. Qed.

(** *** The [try] block up to the status fetch, and what follows it *)

Ltac solve_status_fetch :=
  run_command;
  (eexists; split; [reflexivity|]);
  (split; [intros c Hc
          |split; [intros id task Hc|split; intros r' ? ?; [|intros ?]]]);
  split_elem_of; simplify_eq; try (split; congruence); by split.

Lemma install_status_fetch consumer_id units options r :
  install_reply consumer_id units options = Return r →
  fetch_then_gate (Install.install consumer_id units options)
    (call_install consumer_id units options)
    (call_render_success_message
       (PStr ("Install task created with id ["
              +:+ py_str (task_id (response_body r)) +:+ "]")))
    (task_id (response_body r)).
Proof. intros Hr. unfold fetch_then_gate. solve_status_fetch. Qed.

Lemma uninstall_status_fetch consumer_id units options r :
  uninstall_reply consumer_id units options = Return r →
  fetch_then_gate (Uninstall.uninstall consumer_id units options)
    (call_uninstall consumer_id units options)
    (call_render_success_message
       (PStr ("Uninstall task created with id["
              +:+ py_str (task_id (response_body r)) +:+ "]")))
    (task_id (response_body r)).
Proof. intros Hr. unfold fetch_then_gate. solve_status_fetch. Qed.

(** *** The [except] clause *)

Ltac solve_handler H :=
  unfold call_raises in H;
  repeat match type of H with
  | _ ∨ _ => destruct H as [H|H]
  | _ ∧ _ => let H' := fresh in destruct H as [H' H]
  | ∃ _, _ => let x := fresh "r" in destruct H as [x H]
  end;
  run_command.

Lemma install_NotFoundException consumer_id units options :
  call_raises (install_reply consumer_id units options) consumer_id
    NotFoundException →
  out (Install.install consumer_id units options) = Return () ∧
  last (trace (Install.install consumer_id units options)) =
    Some (call_write
            (PStr ("Consumer [" +:+ py_str consumer_id +:+ "] not found"))
            "not-found").
Proof. intros H. solve_handler H; by split. Qed.

Lemma install_other_exception consumer_id units options e :
  call_raises (install_reply consumer_id units options) consumer_id e →
  e ≠ NotFoundException →
  out (Install.install consumer_id units options) = Raise e ∧
  ∀ msg tag,
    call_write msg tag ∉ trace (Install.install consumer_id units options).
Proof.
  intros H He.
  assert (is_NotFoundException e = false) as Hne by by destruct e.
  solve_handler H; (split; [done|]);
    intros msg tag Hin; cbn [trace] in Hin; split_elem_of; done.
Qed.

Lemma uninstall_NotFoundException consumer_id units options :
  call_raises (uninstall_reply consumer_id units options) consumer_id
    NotFoundException →
  out (Uninstall.uninstall consumer_id units options) = Return () ∧
  last (trace (Uninstall.uninstall consumer_id units options)) =
    Some (call_write
            (PStr ("Consumer [" +:+ py_str consumer_id +:+ "] not found"))
            "not-found").
Proof. intros H. solve_handler H; by split. Qed.

Lemma uninstall_other_exception consumer_id units options e :
  call_raises (uninstall_reply consumer_id units options) consumer_id e →
  e ≠ NotFoundException →
  out (Uninstall.uninstall consumer_id units options) = Raise e ∧
  ∀ msg tag,
    call_write msg tag ∉ trace (Uninstall.uninstall consumer_id units options).
Proof.
  intros H He.
  assert (is_NotFoundException e = false) as Hne by by destruct e.
  solve_handler H; (split; [done|]);
    intros msg tag Hin; cbn [trace] in Hin; split_elem_of; done.
Qed.

(** *** [run]: from the parsed arguments to the request *)

Lemma install_run_eq kwargs consumer_id no_commit importkeys reboot names :
  kwargs !! "consumer-id" = Some consumer_id →
  kwargs !! "no-commit" = Some no_commit →
  kwargs !! "import-keys" = Some importkeys →
  kwargs !! "reboot" = Some reboot →
  kwargs !! "name" = Some (PList names) →
  Install.run kwargs =
    Install.install consumer_id
      ((λ name, PDict {[ "type_id" := PStr TYPE_ID_PKG_GROUP;
                         "unit_key" := PDict {[ "name" := name ]} ]}) <$> names)
      {[ "apply" := PBool (negb (truthy no_commit));
         "importkeys" := importkeys; "reboot" := reboot ]}.
Proof.
  intros Hc Hn Hi Hr Hns. unfold Install.run.
  apply dict_getitem_Some in Hc, Hn, Hi, Hr, Hns.
  known_steps. by rewrite foldl_append.
Qed.

Lemma uninstall_run_eq kwargs consumer_id no_commit reboot names :
  kwargs !! "consumer-id" = Some consumer_id →
  kwargs !! "no-commit" = Some no_commit →
  kwargs !! "reboot" = Some reboot →
  kwargs !! "name" = Some (PList names) →
  Uninstall.run kwargs =
    Uninstall.uninstall consumer_id
      ((λ name, PDict {[ "type_id" := PStr TYPE_ID_PKG_GROUP;
                         "unit_key" := PDict {[ "name" := name ]} ]}) <$> names)
      {[ "apply" := PBool (negb (truthy no_commit)); "reboot" := reboot ]}.
Proof.
  intros Hc Hn Hr Hns. unfold Uninstall.run.
  apply dict_getitem_Some in Hc, Hn, Hr, Hns.
  known_steps. by rewrite foldl_append.
Qed.

End commands.

(** ** The properties of the specification *)

Section claims.
Context {builtins : Builtins} {ids : Ids} {srv : Server} {polling : Polling}.
Implicit Types (id consumer_id : pyval) (task : Task) (units : list pyval)
  (options kwargs : gmap string pyval) (e : exn) (r : Response).

(** C1.  When a call made inside the [try] block of [Install.install] or of
    [Uninstall.uninstall] raises [NotFoundException], the command catches
    it: it returns normally and the last thing it does is to write
    'Consumer [<consumer_id>] not found' with the tag 'not-found'.  No other
    exception is caught: it leaves the command as it was raised, and nothing
    is written. *)
Theorem only_NotFoundException_is_caught consumer_id units options e :
  (call_raises (install_reply consumer_id units options) consumer_id e →
   (e = NotFoundException →
    out (Install.install consumer_id units options) = Return () ∧
    last (trace (Install.install consumer_id units options)) =
      Some (call_write
              (PStr ("Consumer [" +:+ py_str consumer_id +:+ "] not found"))
              "not-found")) ∧
   (e ≠ NotFoundException →
    out (Install.install consumer_id units options) = Raise e ∧
    ∀ msg tag,
      call_write msg tag ∉ trace (Install.install consumer_id units options)))
  ∧
  (call_raises (uninstall_reply consumer_id units options) consumer_id e →
   (e = NotFoundException →
    out (Uninstall.uninstall consumer_id units options) = Return () ∧
    last (trace (Uninstall.uninstall consumer_id units options)) =
      Some (call_write
              (PStr ("Consumer [" +:+ py_str consumer_id +:+ "] not found"))
              "not-found")) ∧
   (e ≠ NotFoundException →
    out (Uninstall.uninstall consumer_id units options) = Raise e ∧
    ∀ msg tag,
      call_write msg tag
        ∉ trace (Uninstall.uninstall consumer_id units options))).
Proof.
  split; intros Hraise; (split; [intros ->|intros Hne]).
  - by apply install_NotFoundException.
  - by apply install_other_exception.
  - by apply uninstall_NotFoundException.
  - by apply uninstall_other_exception.
Qed.

(** C2, as amended.  [Install.run] sends an options bag made of exactly the
    three booleans apply, importkeys and reboot, where apply is the negation
    of --no-commit, importkeys is --import-keys and reboot is --reboot.
    [Uninstall.run] sends an options bag made of exactly the two booleans
    apply and reboot, with the same values, and no importkeys entry. *)
Theorem run_options_bag kwargs consumer_id no_commit reboot names :
  kwargs !! "consumer-id" = Some consumer_id →
  kwargs !! "no-commit" = Some (PBool no_commit) →
  kwargs !! "reboot" = Some (PBool reboot) →
  kwargs !! "name" = Some (PList names) →
  (∀ import_keys,
     kwargs !! "import-keys" = Some (PBool import_keys) →
     sends_options (Install.run kwargs) (negb no_commit) import_keys reboot ∧
     ∃ units,
       requests (Install.run kwargs) =
         [(consumer_id, units,
           {[ "apply" := PBool (negb no_commit);
              "importkeys" := PBool import_keys;
              "reboot" := PBool reboot ]})]) ∧
  (∃ units,
     requests (Uninstall.run kwargs) =
       [(consumer_id, units,
         {[ "apply" := PBool (negb no_commit); "reboot" := PBool reboot ]})]).
Proof.
  intros Hc Hn Hr Hns. split.
  - intros import_keys Hi. unfold sends_options.
    rewrite (install_run_eq _ _ _ _ _ _ Hc Hn Hi Hr Hns), install_requests.
    cbn [truthy]. split; [|by eexists].
    eexists _, _, _. split; [reflexivity|]. by simplify_map_eq.
  - rewrite (uninstall_run_eq _ _ _ _ _ Hc Hn Hr Hns), uninstall_requests.
    by eexists.
Qed.

(** C3, as amended.  The install command exposes exactly --consumer-id
    (required), --name (required, repeatable, alias -n), --no-commit,
    --reboot and --import-keys; the uninstall command exposes exactly the
    first four, and no --import-keys. *)
Theorem run_option_surface :
  surface Install.__init__ ≡ₚ run_surface ∧
  surface Uninstall.__init__ ≡ₚ run_surface_without_keys.
Proof.
  split; apply perm_skip; symmetry.
  - exact (Permutation_middle [Flag "--no-commit"; Flag "--reboot"]
             [Flag "--import-keys"] _).
  - exact (Permutation_middle [Flag "--no-commit"; Flag "--reboot"] [] _).
Qed.

(** C4.  For a non-empty list of --name values, the units list that
    [Install.run] and [Uninstall.run] send has one element per name, in the
    order of the names, and the element for a name is the descriptor
    {type_id: TYPE_ID_PKG_GROUP, unit_key: {name: <name>}}.  (The loop does
    the same on an empty list; the command line always gives a name.) *)
Theorem run_units_follow_names kwargs consumer_id no_commit reboot names :
  kwargs !! "consumer-id" = Some consumer_id →
  kwargs !! "no-commit" = Some no_commit →
  kwargs !! "reboot" = Some reboot →
  kwargs !! "name" = Some (PList names) →
  names ≠ [] →
  (∀ import_keys,
     kwargs !! "import-keys" = Some import_keys →
     ∃ units options,
       requests (Install.run kwargs) = [(consumer_id, units, options)] ∧
       length units = length names ∧
       ∀ i name,
         names !! i = Some name →
         units !! i =
           Some (PDict {[ "type_id" := PStr TYPE_ID_PKG_GROUP;
                          "unit_key" := PDict {[ "name" := name ]} ]})) ∧
  (∃ units options,
     requests (Uninstall.run kwargs) = [(consumer_id, units, options)] ∧
     length units = length names ∧
     ∀ i name,
       names !! i = Some name →
       units !! i =
         Some (PDict {[ "type_id" := PStr TYPE_ID_PKG_GROUP;
                        "unit_key" := PDict {[ "name" := name ]} ]})).
Proof.
  intros Hc Hn Hr Hns _. split.
  - intros import_keys Hi.
    rewrite (install_run_eq _ _ _ _ _ _ Hc Hn Hi Hr Hns), install_requests.
    eexists _, _. split; [reflexivity|]. split; [by rewrite length_fmap|].
    intros i name Hi'. by rewrite list_lookup_fmap, Hi'.
  - rewrite (uninstall_run_eq _ _ _ _ _ Hc Hn Hr Hns), uninstall_requests.
    eexists _, _. split; [reflexivity|]. split; [by rewrite length_fmap|].
    intros i name Hi'. by rewrite list_lookup_fmap, Hi'.
Qed.

(** C5.  For a task result whose status is falsy, [succeeded] renders the
    failure message 'Install failed' (resp. 'Uninstall Failed'), then the
    text result['details'][TYPE_ID_PKG_GROUP]['details']['message'] as a
    second failure message, and returns: these two calls are all it does. *)
Theorem succeeded_reports_failure id task status message :
  status_of task = Return status →
  truthy status = false →
  group_detail task "message" = Return message →
  Install.succeeded id task =
    Run [call_render_failure_message (PStr "Install failed");
         call_render_failure_message message] (Return ()) ∧
  Uninstall.succeeded id task =
    Run [call_render_failure_message (PStr "Uninstall Failed");
         call_render_failure_message message] (Return ()).
Proof.
  intros Hs Hf Hm. split.
  - by eapply install_succeeded_failed.
  - by eapply uninstall_succeeded_failed.
Qed.

(** C6.  For a task result whose status is truthy and whose resolved list
    is not empty, [Install.succeeded] first renders the success message
    'Install Succeeded', then the title 'Installed', then the document list
    of the resolved entries, ordered and filtered by the columns name,
    version, arch, repoid; [Uninstall.succeeded] does the same with
    'Uninstall Succeeded' and 'Uninstalled'. *)
Theorem succeeded_lists_resolved id task status resolved :
  status_of task = Return status →
  truthy status = true →
  group_detail task "resolved" = Return (PList resolved) →
  resolved ≠ [] →
  (∃ rest,
     trace (Install.succeeded id task) =
       [call_render_success_message (PStr "Install Succeeded");
        call_render_title (PStr "Installed");
        call_render_document_list (PList resolved)
          ["name"; "version"; "arch"; "repoid"]
          ["name"; "version"; "arch"; "repoid"]] ++ rest) ∧
  (∃ rest,
     trace (Uninstall.succeeded id task) =
       [call_render_success_message (PStr "Uninstall Succeeded");
        call_render_title (PStr "Uninstalled");
        call_render_document_list (PList resolved)
          ["name"; "version"; "arch"; "repoid"]
          ["name"; "version"; "arch"; "repoid"]] ++ rest).
Proof.
  intros Hs Ht Hr Hne. apply truthy_PList in Hne. split.
  - rewrite (install_succeeded_trace _ _ _ _ Hs Ht Hr), Hne. by eexists.
  - rewrite (uninstall_succeeded_trace _ _ _ _ Hs Ht Hr), Hne. by eexists.
Qed.

(** C7, as amended.  When the content request is accepted (does not raise),
    the command first issues the content request, then (after the message
    about the created task) fetches the task status once with
    [server.tasks.get_task]; it never invokes [process] on a task for which
    [rejected] or [postponed] holds, and in those two cases it returns right
    after the check that follows the status fetch. *)
Theorem status_fetched_once_before_gate consumer_id units options :
  (∀ r,
     install_reply consumer_id units options = Return r →
     fetch_then_gate (Install.install consumer_id units options)
       (call_install consumer_id units options)
       (call_render_success_message
          (PStr ("Install task created with id ["
                 +:+ py_str (task_id (response_body r)) +:+ "]")))
       (task_id (response_body r))) ∧
  (∀ r,
     uninstall_reply consumer_id units options = Return r →
     fetch_then_gate (Uninstall.uninstall consumer_id units options)
       (call_uninstall consumer_id units options)
       (call_render_success_message
          (PStr ("Uninstall task created with id["
                 +:+ py_str (task_id (response_body r)) +:+ "]")))
       (task_id (response_body r))).
Proof.
  split; intros r Hr.
  - by apply install_status_fetch.
  - by apply uninstall_status_fetch.
Qed.

(** C8.  For a task result whose status is truthy and whose resolved list
    is empty, no 'Installed' (resp. 'Uninstalled') title and no table of the
    resolved list is rendered.  After 'Install Succeeded', [Install.succeeded]
    renders the success message 'Packages for groups already installed', and
    [Uninstall.succeeded], after 'Uninstall Succeeded', renders 'No matching
    packages found to uninstall'; all that may follow is the dependency
    section. *)
Theorem succeeded_nothing_resolved id task status :
  status_of task = Return status →
  truthy status = true →
  group_detail task "resolved" = Return (PList []) →
  ((∃ rest,
      trace (Install.succeeded id task) =
        call_render_success_message (PStr "Install Succeeded")
        :: call_render_success_message
             (PStr "Packages for groups already installed")
        :: rest ∧
      (rest = [] ∨
       ∃ deps,
         truthy deps = true ∧
         rest = [call_render_title (PStr "Installed for dependency");
                 call_render_document_list deps columns columns])) ∧
   (call_render_title (PStr "Installed")
      ∉ trace (Install.succeeded id task)) ∧
   (∀ order filters,
      call_render_document_list (PList []) order filters
        ∉ trace (Install.succeeded id task))) ∧
  ((∃ rest,
      trace (Uninstall.succeeded id task) =
        call_render_success_message (PStr "Uninstall Succeeded")
        :: call_render_success_message
             (PStr "No matching packages found to uninstall")
        :: rest ∧
      (rest = [] ∨
       ∃ deps,
         truthy deps = true ∧
         rest = [call_render_title (PStr "Uninstalled for dependency");
                 call_render_document_list deps columns columns])) ∧
   (call_render_title (PStr "Uninstalled")
      ∉ trace (Uninstall.succeeded id task)) ∧
   (∀ order filters,
      call_render_document_list (PList []) order filters
        ∉ trace (Uninstall.succeeded id task))).
Proof.
  intros Hs Ht Hr.
  rewrite (install_succeeded_trace _ _ _ _ Hs Ht Hr),
    (uninstall_succeeded_trace _ _ _ _ Hs Ht Hr).
  cbn [truthy length Nat.eqb negb trace app].
  destruct (group_detail task "deps") as [deps|e];
    [destruct (truthy deps) eqn:Hd|];
    (split; (split; [eexists; split; [reflexivity|]; eauto|]));
    (split; [|intros order filters]); intros Hin; split_elem_of;
    simplify_eq; done.
Qed.

(** C9.  For a task result whose status is truthy, the dependency section
    (the title 'Installed for dependency', resp. 'Uninstalled for
    dependency', followed by the document list of deps) is rendered if and
    only if the deps list is not empty, whatever the resolved entry is; when
    rendered, it ends the output. *)
Theorem succeeded_dependency_section id task status resolved deps :
  status_of task = Return status →
  truthy status = true →
  group_detail task "resolved" = Return resolved →
  group_detail task "deps" = Return (PList deps) →
  ((call_render_title (PStr "Installed for dependency")
      ∈ trace (Install.succeeded id task) ↔ deps ≠ []) ∧
   (call_render_document_list (PList deps) columns columns
      ∈ trace (Install.succeeded id task) ↔ deps ≠ []) ∧
   (deps ≠ [] →
    ∃ before,
      trace (Install.succeeded id task) =
        before ++ [call_render_title (PStr "Installed for dependency");
                   call_render_document_list (PList deps) columns columns])) ∧
  ((call_render_title (PStr "Uninstalled for dependency")
      ∈ trace (Uninstall.succeeded id task) ↔ deps ≠ []) ∧
   (call_render_document_list (PList deps) columns columns
      ∈ trace (Uninstall.succeeded id task) ↔ deps ≠ []) ∧
   (deps ≠ [] →
    ∃ before,
      trace (Uninstall.succeeded id task) =
        before ++ [call_render_title (PStr "Uninstalled for dependency");
                   call_render_document_list (PList deps) columns columns])).
Proof.
  intros Hs Ht Hr Hd.
  rewrite (install_succeeded_trace _ _ _ _ Hs Ht Hr),
    (uninstall_succeeded_trace _ _ _ _ Hs Ht Hr), Hd.
  cbn [trace].
  destruct deps as [|dep deps]; cbn [truthy length Nat.eqb negb].
  - destruct (truthy resolved) eqn:Hres; cbn [app];
      repeat split; try done; intros Hin; split_elem_of; simplify_eq; done.
  - repeat split; try done; intros _;
      try (by eexists (_ :: _));
      rewrite elem_of_cons, elem_of_app, !elem_of_cons; naive_solver.
Qed.

(** C10.  When the content request returns a task, the success message
    'Install task created with id [<id>]' (resp. 'Uninstall task created
    with id[<id>]') is rendered right after the request and before the task
    status is fetched, whatever the status fetch and the checks for a
    rejected or postponed task give afterwards. *)
Theorem created_message_precedes_status_fetch consumer_id units options :
  (∀ r,
     install_reply consumer_id units options = Return r →
     ∃ rest,
       trace (Install.install consumer_id units options) =
         call_install consumer_id units options
         :: call_render_success_message
              (PStr ("Install task created with id ["
                     +:+ py_str (task_id (response_body r)) +:+ "]"))
         :: call_get_task (task_id (response_body r))
         :: rest) ∧
  (∀ r,
     uninstall_reply consumer_id units options = Return r →
     ∃ rest,
       trace (Uninstall.uninstall consumer_id units options) =
         call_uninstall consumer_id units options
         :: call_render_success_message
              (PStr ("Uninstall task created with id["
                     +:+ py_str (task_id (response_body r)) +:+ "]"))
         :: call_get_task (task_id (response_body r))
         :: rest).
Proof.
  split; intros r Hr.
  - destruct (install_status_fetch _ _ _ _ Hr) as (rest & Htrace & _).
    by exists rest.
  - destruct (uninstall_status_fetch _ _ _ _ Hr) as (rest & Htrace & _).
    by exists rest.
Qed.

End claims.


(** * Further properties of the code *)

Lemma is_NotFoundException_true e :
  is_NotFoundException e = true ↔ e = NotFoundException.
Proof. destruct e; simpl; split; congruence. Qed.

Lemma is_NotFoundException_false e :
  is_NotFoundException e = false ↔ e ≠ NotFoundException.
Proof. destruct e; simpl; split; congruence. Qed.

(** ** The commands *)

(** Unfold a command down to its calls, use the replies that are known and
    split on the others. *)
Ltac unfold_command :=
  unfold Install.install, Uninstall.uninstall; unfold_calls;
  repeat first
    [ format_step
    | match goal with E : ?x = _ |- context [?x] => rewrite E end
    | progress cbn [trace out app is_NotFoundException]
    | split_reply ].

Section further_commands.
Context {builtins : Builtins} {ids : Ids} {srv : Server} {polling : Polling}.
Implicit Types (consumer_id : pyval) (units : list pyval)
  (options kwargs : gmap string pyval) (e : exn) (r : Response).

Lemma install_run_cases kwargs :
  (∃ key, first_missing kwargs install_keys = Some key ∧
          Install.run kwargs = Run [] (Raise (KeyError key))) ∨
  (∃ consumer_id no_commit importkeys reboot names,
     kwargs !! "consumer-id" = Some consumer_id ∧
     kwargs !! "no-commit" = Some no_commit ∧
     kwargs !! "import-keys" = Some importkeys ∧
     kwargs !! "reboot" = Some reboot ∧
     kwargs !! "name" = Some names ∧
     match iterate names with
     | Raise e => Install.run kwargs = Run [] (Raise e)
     | Return items =>
         Install.run kwargs =
           Install.install consumer_id (unit_descriptor <$> items)
             {[ "apply" := PBool (negb (truthy no_commit));
                "importkeys" := importkeys; "reboot" := reboot ]}
     end).
Proof.
  unfold first_missing, install_keys; cbn [List.find].
  destruct (kwargs !! "consumer-id") as [consumer_id|] eqn:Hc;
    [|left; eexists; split; [reflexivity|];
      unfold Install.run, dict_getitem; by rewrite Hc].
  destruct (kwargs !! "no-commit") as [no_commit|] eqn:Hn;
    [|left; eexists; split; [reflexivity|];
      unfold Install.run, dict_getitem; by rewrite Hc, Hn].
  destruct (kwargs !! "import-keys") as [importkeys|] eqn:Hi;
    [|left; eexists; split; [reflexivity|];
      unfold Install.run, dict_getitem; by rewrite Hc, Hn, Hi].
  destruct (kwargs !! "reboot") as [reboot|] eqn:Hr;
    [|left; eexists; split; [reflexivity|];
      unfold Install.run, dict_getitem; by rewrite Hc, Hn, Hi, Hr].
  destruct (kwargs !! "name") as [names|] eqn:Hns;
    [|left; eexists; split; [reflexivity|];
      unfold Install.run, dict_getitem; by rewrite Hc, Hn, Hi, Hr, Hns].
  right. exists consumer_id, no_commit, importkeys, reboot, names.
  do 5 (split; [done|]).
  unfold Install.run, dict_getitem. rewrite Hc, Hn, Hi, Hr, Hns.
  rewrite !bind_eval_Return.
  destruct (iterate names) as [items|e]; [|done].
  rewrite bind_eval_Return. by rewrite foldl_append.
Qed.

Lemma uninstall_run_cases kwargs :
  (∃ key, first_missing kwargs uninstall_keys = Some key ∧
          Uninstall.run kwargs = Run [] (Raise (KeyError key))) ∨
  (∃ consumer_id no_commit reboot names,
     kwargs !! "consumer-id" = Some consumer_id ∧
     kwargs !! "no-commit" = Some no_commit ∧
     kwargs !! "reboot" = Some reboot ∧
     kwargs !! "name" = Some names ∧
     match iterate names with
     | Raise e => Uninstall.run kwargs = Run [] (Raise e)
     | Return items =>
         Uninstall.run kwargs =
           Uninstall.uninstall consumer_id (unit_descriptor <$> items)
             {[ "apply" := PBool (negb (truthy no_commit)); "reboot" := reboot ]}
     end).
Proof.
  unfold first_missing, uninstall_keys; cbn [List.find].
  destruct (kwargs !! "consumer-id") as [consumer_id|] eqn:Hc;
    [|left; eexists; split; [reflexivity|];
      unfold Uninstall.run, dict_getitem; by rewrite Hc].
  destruct (kwargs !! "no-commit") as [no_commit|] eqn:Hn;
    [|left; eexists; split; [reflexivity|];
      unfold Uninstall.run, dict_getitem; by rewrite Hc, Hn].
  destruct (kwargs !! "reboot") as [reboot|] eqn:Hr;
    [|left; eexists; split; [reflexivity|];
      unfold Uninstall.run, dict_getitem; by rewrite Hc, Hn, Hr].
  destruct (kwargs !! "name") as [names|] eqn:Hns;
    [|left; eexists; split; [reflexivity|];
      unfold Uninstall.run, dict_getitem; by rewrite Hc, Hn, Hr, Hns].
  right. exists consumer_id, no_commit, reboot, names.
  do 4 (split; [done|]).
  unfold Uninstall.run, dict_getitem. rewrite Hc, Hn, Hr, Hns.
  rewrite !bind_eval_Return.
  destruct (iterate names) as [items|e]; [|done].
  rewrite bind_eval_Return. by rewrite foldl_append.
Qed.

Lemma iterate_Raise v e : iterate v = Raise e → e = TypeError.
Proof. destruct v; simpl; congruence. Qed.

Lemma length_chars s : length (chars s) = String.length s.
Proof. induction s as [|c s IH]; simpl; congruence. Qed.

Lemma lookup_chars s i :
  chars s !! i = (λ c, PStr (String c "")) <$> String.get i s.
Proof.
  revert i. induction s as [|c s IH]; intros [|i]; simpl; auto.
Qed.

(** X1.  When an argument that [run] reads is missing from the parsed
    arguments, [run] raises [KeyError] for the first missing one, in the
    order consumer-id, no-commit, (import-keys,) reboot, name, and makes no
    call at all: nothing is sent to the server and nothing is printed. *)
Theorem run_missing_argument kwargs key :
  (first_missing kwargs install_keys = Some key →
   Install.run kwargs = Run [] (Raise (KeyError key))) ∧
  (first_missing kwargs uninstall_keys = Some key →
   Uninstall.run kwargs = Run [] (Raise (KeyError key))).
Proof.
  split; intros Hmiss.
  - destruct (install_run_cases kwargs)
      as [(key' & Hk & Hrun)|(c & n & i & r & ns & Hc & Hn & Hi & Hr & Hns & _)].
    + by simplify_eq.
    + unfold first_missing, install_keys in Hmiss; cbn [List.find] in Hmiss.
      by rewrite Hc, Hn, Hi, Hr, Hns in Hmiss.
  - destruct (uninstall_run_cases kwargs)
      as [(key' & Hk & Hrun)|(c & n & r & ns & Hc & Hn & Hr & Hns & _)].
    + by simplify_eq.
    + unfold first_missing, uninstall_keys in Hmiss; cbn [List.find] in Hmiss.
      by rewrite Hc, Hn, Hr, Hns in Hmiss.
Qed.

(** X2.  When every argument is there but the value of name is [None], a
    boolean or a number, [run] raises [TypeError] at the loop over the
    names, before any call. *)
Theorem run_name_not_iterable kwargs names :
  kwargs !! "name" = Some names →
  names = PNone ∨ (∃ b, names = PBool b) ∨ (∃ z, names = PInt z) →
  (first_missing kwargs install_keys = None →
   Install.run kwargs = Run [] (Raise TypeError)) ∧
  (first_missing kwargs uninstall_keys = None →
   Uninstall.run kwargs = Run [] (Raise TypeError)).
Proof.
  intros Hns Hscalar.
  assert (iterate names = Raise TypeError) as Hit
    by (destruct Hscalar as [->|[[b ->]|[z ->]]]; done).
  split; intros Hnone.
  - destruct (install_run_cases kwargs)
      as [(key' & Hk & _)|(c & n & i & r & ns & _ & _ & _ & _ & Hns' & Hrun)];
      [congruence|].
    simplify_eq. by rewrite Hit in Hrun.
  - destruct (uninstall_run_cases kwargs)
      as [(key' & Hk & _)|(c & n & r & ns & _ & _ & _ & Hns' & Hrun)];
      [congruence|].
    simplify_eq. by rewrite Hit in Hrun.
Qed.


(** X3.  When the value of name is a string and not a list, the loop of
    [run] goes over its characters: the request holds one unit per
    character, each named by that character. *)
Theorem run_string_name_is_split kwargs s :
  kwargs !! "name" = Some (PStr s) →
  (first_missing kwargs install_keys = None →
   ∃ consumer_id units options,
     requests (Install.run kwargs) = [(consumer_id, units, options)] ∧
     length units = String.length s ∧
     ∀ i c, String.get i s = Some c →
            units !! i = Some (unit_descriptor (PStr (String c "")))) ∧
  (first_missing kwargs uninstall_keys = None →
   ∃ consumer_id units options,
     requests (Uninstall.run kwargs) = [(consumer_id, units, options)] ∧
     length units = String.length s ∧
     ∀ i c, String.get i s = Some c →
            units !! i = Some (unit_descriptor (PStr (String c "")))).
Proof.
  intros Hns. split; intros Hnone.
  - destruct (install_run_cases kwargs)
      as [(key' & Hk & _)|(c & n & i & r & ns & _ & _ & _ & _ & Hns' & Hrun)];
      [congruence|].
    simplify_eq. cbn [iterate] in Hrun. rewrite Hrun, install_requests.
    eexists _, _, _. split; [done|].
    split; [by rewrite length_fmap, length_chars|].
    intros j ch Hget. by rewrite list_lookup_fmap, lookup_chars, Hget.
  - destruct (uninstall_run_cases kwargs)
      as [(key' & Hk & _)|(c & n & r & ns & _ & _ & _ & Hns' & Hrun)];
      [congruence|].
    simplify_eq. cbn [iterate] in Hrun. rewrite Hrun, uninstall_requests.
    eexists _, _, _. split; [done|].
    split; [by rewrite length_fmap, length_chars|].
    intros j ch Hget. by rewrite list_lookup_fmap, lookup_chars, Hget.
Qed.


Lemma install_trace_kinds consumer_id units options c :
  c ∈ trace (Install.install consumer_id units options) →
  c = call_install consumer_id units options ∨ request_of c = None.
Proof. unfold_command; intros Hin; split_elem_of; subst; auto. Qed.

Lemma uninstall_trace_kinds consumer_id units options c :
  c ∈ trace (Uninstall.uninstall consumer_id units options) →
  c = call_uninstall consumer_id units options ∨ request_of c = None.
Proof. unfold_command; intros Hin; split_elem_of; subst; auto. Qed.

Lemma install_never_NotFoundException consumer_id units options :
  out (Install.install consumer_id units options) ≠ Raise NotFoundException.
Proof.
  unfold_command; try done;
    intros [= ->]; discriminate.
Qed.

Lemma uninstall_never_NotFoundException consumer_id units options :
  out (Uninstall.uninstall consumer_id units options) ≠ Raise NotFoundException.
Proof.
  unfold_command; try done;
    intros [= ->]; discriminate.
Qed.

(** X5.  For any arguments, [Install.run] makes no uninstall request and
    [Uninstall.run] no install request, and each sends at most one content
    request. *)
Theorem run_sends_its_own_request_once kwargs :
  ((∀ c u o, call_uninstall c u o ∉ trace (Install.run kwargs)) ∧
   (length (requests (Install.run kwargs)) ≤ 1)%nat) ∧
  ((∀ c u o, call_install c u o ∉ trace (Uninstall.run kwargs)) ∧
   (length (requests (Uninstall.run kwargs)) ≤ 1)%nat).
Proof.
  split.
  - destruct (install_run_cases kwargs)
      as [(key & _ & ->)|(c & n & i & r & ns & _ & _ & _ & _ & _ & Hrun)].
    { split; [intros ??? Hin; by apply elem_of_nil in Hin|simpl; lia]. }
    destruct (iterate ns); rewrite Hrun.
    + split; [|by rewrite install_requests].
      intros c' u o Hin. by apply install_trace_kinds in Hin as [?|?].
    + split; [intros ??? Hin; by apply elem_of_nil in Hin|simpl; lia].
  - destruct (uninstall_run_cases kwargs)
      as [(key & _ & ->)|(c & n & r & ns & _ & _ & _ & _ & Hrun)].
    { split; [intros ??? Hin; by apply elem_of_nil in Hin|simpl; lia]. }
    destruct (iterate ns); rewrite Hrun.
    + split; [|by rewrite uninstall_requests].
      intros c' u o Hin. by apply uninstall_trace_kinds in Hin as [?|?].
    + split; [intros ??? Hin; by apply elem_of_nil in Hin|simpl; lia].
Qed.

(** X6.  [NotFoundException] never leaves [install], [uninstall] or the
    two [run] methods, whatever the server and the polling methods do. *)
Theorem NotFoundException_never_escapes kwargs consumer_id units options :
  out (Install.install consumer_id units options) ≠ Raise NotFoundException ∧
  out (Uninstall.uninstall consumer_id units options) ≠ Raise NotFoundException ∧
  out (Install.run kwargs) ≠ Raise NotFoundException ∧
  out (Uninstall.run kwargs) ≠ Raise NotFoundException.
Proof.
  split; [apply install_never_NotFoundException|].
  split; [apply uninstall_never_NotFoundException|].
  split.
  - destruct (install_run_cases kwargs)
      as [(key & _ & ->)|(c & n & i & r & ns & _ & _ & _ & _ & _ & Hrun)];
      [done|].
    destruct (iterate ns) eqn:Hit; rewrite Hrun.
    + apply install_never_NotFoundException.
    + apply iterate_Raise in Hit as ->. done.
  - destruct (uninstall_run_cases kwargs)
      as [(key & _ & ->)|(c & n & r & ns & _ & _ & _ & _ & Hrun)];
      [done|].
    destruct (iterate ns) eqn:Hit; rewrite Hrun.
    + apply uninstall_never_NotFoundException.
    + apply iterate_Raise in Hit as ->. done.
Qed.

(** X7.  [run] depends on the arguments it reads only: two argument
    dictionaries that agree on them give the same run, so [Uninstall.run]
    is blind to an import-keys entry. *)
Theorem run_reads_only_its_arguments kwargs kwargs' :
  ((∀ key, key ∈ install_keys → kwargs !! key = kwargs' !! key) →
   Install.run kwargs = Install.run kwargs') ∧
  ((∀ key, key ∈ uninstall_keys → kwargs !! key = kwargs' !! key) →
   Uninstall.run kwargs = Uninstall.run kwargs').
Proof.
  split; intros Hsame.
  - unfold Install.run, dict_getitem.
    rewrite !(Hsame "consumer-id"), !(Hsame "no-commit"),
      !(Hsame "import-keys"), !(Hsame "reboot"), !(Hsame "name");
      [done|unfold install_keys; set_solver..].
  - unfold Uninstall.run, dict_getitem.
    rewrite !(Hsame "consumer-id"), !(Hsame "no-commit"),
      !(Hsame "reboot"), !(Hsame "name");
      [done|unfold uninstall_keys; set_solver..].
Qed.

(** X8.  The options a command declares are the arguments its [run] reads:
    a value is there for every declared option (under the name of the
    option without its dashes) exactly when no argument of [run] is
    missing. *)
Theorem declared_options_are_the_arguments_read kwargs :
  ((∀ o, o ∈ cmd_options Install.__init__ →
         is_Some (kwargs !! kwarg_key (opt_name o))) ↔
   first_missing kwargs install_keys = None) ∧
  ((∀ o, o ∈ cmd_options Uninstall.__init__ →
         is_Some (kwargs !! kwarg_key (opt_name o))) ↔
   first_missing kwargs uninstall_keys = None).
Proof.
  unfold first_missing, install_keys, uninstall_keys; cbn [List.find].
  rewrite <- !Forall_forall. cbn.
  rewrite !Forall_cons, Forall_nil. cbn.
  destruct (kwargs !! "consumer-id"), (kwargs !! "no-commit"),
    (kwargs !! "import-keys"), (kwargs !! "reboot"), (kwargs !! "name");
    split; split; intros H; try done; try discriminate;
    repeat match goal with
    | H : _ ∧ _ |- _ => destruct H
    | H : is_Some None |- _ => by destruct H
    end.
Qed.


(** X9.  In every request that [run] sends, for any arguments, each unit is
    a package-group descriptor {type_id: TYPE_ID_PKG_GROUP, unit_key:
    {name: ...}} and apply is a boolean. *)
Theorem run_units_are_group_descriptors kwargs :
  (∀ c u o, (c, u, o) ∈ requests (Install.run kwargs) →
     (∀ unit, unit ∈ u → ∃ name, unit = unit_descriptor name) ∧
     ∃ apply, o !! "apply" = Some (PBool apply)) ∧
  (∀ c u o, (c, u, o) ∈ requests (Uninstall.run kwargs) →
     (∀ unit, unit ∈ u → ∃ name, unit = unit_descriptor name) ∧
     ∃ apply, o !! "apply" = Some (PBool apply)).
Proof.
  split; intros c u o Hin.
  - destruct (install_run_cases kwargs)
      as [(key & _ & Hrun)|(c' & n & i & r & ns & _ & _ & _ & _ & _ & Hrun)].
    { rewrite Hrun in Hin. by apply elem_of_nil in Hin. }
    destruct (iterate ns) as [items|e]; rewrite Hrun in Hin;
      [|by apply elem_of_nil in Hin].
    rewrite install_requests in Hin. apply list_elem_of_singleton in Hin.
    simplify_eq. split; [|by eexists].
    intros unit (name & -> & _)%list_elem_of_fmap. by exists name.
  - destruct (uninstall_run_cases kwargs)
      as [(key & _ & Hrun)|(c' & n & r & ns & _ & _ & _ & _ & Hrun)].
    { rewrite Hrun in Hin. by apply elem_of_nil in Hin. }
    destruct (iterate ns) as [items|e]; rewrite Hrun in Hin;
      [|by apply elem_of_nil in Hin].
    rewrite uninstall_requests in Hin. apply list_elem_of_singleton in Hin.
    simplify_eq. split; [|by eexists].
    intros unit (name & -> & _)%list_elem_of_fmap. by exists name.
Qed.

Ltac name_NotFoundException :=
  repeat match goal with
  | H : is_NotFoundException ?e = true |- _ =>
      apply is_NotFoundException_true in H; subst e
  end.

(** X10.  [install] and [uninstall] write to the prompt only when a call of
    the [try] block raised [NotFoundException], and what they write then is
    'Consumer [<consumer_id>] not found' with the tag 'not-found'. *)
Theorem not_found_message_needs_NotFoundException consumer_id units options msg tag :
  (call_write msg tag ∈ trace (Install.install consumer_id units options) →
   call_raises (install_reply consumer_id units options) consumer_id
     NotFoundException ∧
   msg = PStr ("Consumer [" +:+ py_str consumer_id +:+ "] not found") ∧
   tag = "not-found") ∧
  (call_write msg tag ∈ trace (Uninstall.uninstall consumer_id units options) →
   call_raises (uninstall_reply consumer_id units options) consumer_id
     NotFoundException ∧
   msg = PStr ("Consumer [" +:+ py_str consumer_id +:+ "] not found") ∧
   tag = "not-found").
Proof.
  split; unfold_command; intros Hin; split_elem_of; simplify_eq;
    name_NotFoundException; (split; [|done]); unfold call_raises;
    eauto 12.
Qed.

Ltac find_in_trace :=
  repeat first [apply list_elem_of_here | apply list_elem_of_further].

(** X11.  [process] is invoked exactly when the content request and the
    status fetch returned and the fetched task is neither rejected nor
    postponed; it is invoked with the consumer id of the command and the
    fetched task (not the task of the first reply). *)
Theorem process_runs_iff_task_is_accepted consumer_id units options id task :
  (call_process id task ∈ trace (Install.install consumer_id units options) ↔
   ∃ r r',
     install_reply consumer_id units options = Return r ∧
     get_task_reply (task_id (response_body r)) = Return r' ∧
     rejected_result (response_body r') = Return false ∧
     postponed_result (response_body r') = Return false ∧
     id = consumer_id ∧ task = response_body r') ∧
  (call_process id task ∈ trace (Uninstall.uninstall consumer_id units options) ↔
   ∃ r r',
     uninstall_reply consumer_id units options = Return r ∧
     get_task_reply (task_id (response_body r)) = Return r' ∧
     rejected_result (response_body r') = Return false ∧
     postponed_result (response_body r') = Return false ∧
     id = consumer_id ∧ task = response_body r').
Proof.
  split; split.
  1,3: unfold_command; intros Hin; split_elem_of; simplify_eq;
         eexists _, _; by repeat split.
  all: intros (r & r' & Hc & Hg & Hr & Hp & -> & ->);
    unfold_command; find_in_trace.
Qed.

(** X12.  For an accepted task that [process] sees through, the command
    makes six calls, in this order: the content request, the message about
    the created task, the status fetch, the rejected check, the postponed
    check and [process]; then it returns. *)
Theorem accepted_task_is_processed consumer_id units options r r' :
  get_task_reply (task_id (response_body r)) = Return r' →
  rejected_result (response_body r') = Return false →
  postponed_result (response_body r') = Return false →
  process_result consumer_id (response_body r') = Return () →
  (install_reply consumer_id units options = Return r →
   Install.install consumer_id units options =
     Run [call_install consumer_id units options;
          call_render_success_message
            (PStr ("Install task created with id ["
                   +:+ py_str (task_id (response_body r)) +:+ "]"));
          call_get_task (task_id (response_body r));
          call_rejected (response_body r');
          call_postponed (response_body r');
          call_process consumer_id (response_body r')]
         (Return ())) ∧
  (uninstall_reply consumer_id units options = Return r →
   Uninstall.uninstall consumer_id units options =
     Run [call_uninstall consumer_id units options;
          call_render_success_message
            (PStr ("Uninstall task created with id["
                   +:+ py_str (task_id (response_body r)) +:+ "]"));
          call_get_task (task_id (response_body r));
          call_rejected (response_body r');
          call_postponed (response_body r');
          call_process consumer_id (response_body r')]
         (Return ())).
Proof. intros Hg Hr Hp Hproc. split; intros Hc; by unfold_command. Qed.


End further_commands.

(** ** The rendering of a result *)

(** Unfold [succeeded] down to its calls and split on every lookup and
    truth test. *)
Ltac run_succeeded :=
  unfold Install.succeeded, Uninstall.succeeded, status_of, group_detail;
  unfold_calls;
  repeat first
    [ progress cbn [getpath trace out app negb]
    | match goal with
      | |- context [getitem ?v ?k] => destruct (getitem v k) as [?x|?e] eqn:?
      end
    | match goal with
      | |- context [truthy ?v] => destruct (truthy v) eqn:?
      end ].

Section rendering.
Context {ids : Ids}.
Implicit Types (id : pyval) (task : Task) (e : exn).

(** X14.  [succeeded] never renders both a failure message and a success
    message for one task, whatever the result document is. *)
Theorem succeeded_never_mixes_messages id task failure success :
  ¬ (call_render_failure_message failure ∈ trace (Install.succeeded id task) ∧
     call_render_success_message success ∈ trace (Install.succeeded id task)) ∧
  ¬ (call_render_failure_message failure ∈ trace (Uninstall.succeeded id task) ∧
     call_render_success_message success ∈ trace (Uninstall.succeeded id task)).
Proof.
  split; run_succeeded; intros [Hf Hs]; split_elem_of; congruence.
Qed.

(** X15.  A table is rendered only for a task whose status is truthy, only
    for a truthy (non-empty) resolved or deps entry of its details, and
    always ordered and filtered by name, version, arch, repoid. *)
Theorem tables_show_packages_of_a_successful_task id task docs order filters :
  (call_render_document_list docs order filters
     ∈ trace (Install.succeeded id task) ∨
   call_render_document_list docs order filters
     ∈ trace (Uninstall.succeeded id task)) →
  truthy docs = true ∧
  order = columns ∧ filters = columns ∧
  (∃ status, status_of task = Return status ∧ truthy status = true) ∧
  (group_detail task "resolved" = Return docs ∨
   group_detail task "deps" = Return docs).
Proof.
  intros [Hin|Hin]; revert Hin; run_succeeded; intros Hin; split_elem_of;
    simplify_eq; repeat split; eauto.
Qed.

(** X16.  On a result document that cannot be read as a failure report:
    when the status cannot be read, or the status is falsy and the details
    cannot be read, [succeeded] raises before it renders anything; when only
    the message is missing, the line 'Install failed' (resp. 'Uninstall
    Failed') is already out when the lookup raises. *)
Theorem failure_report_of_a_malformed_result id task e :
  (status_of task = Raise e →
   Install.succeeded id task = Run [] (Raise e) ∧
   Uninstall.succeeded id task = Run [] (Raise e)) ∧
  (∀ status,
     status_of task = Return status →
     truthy status = false →
     (getpath (result task) ["details"; TYPE_ID_PKG_GROUP; "details"] = Raise e →
      Install.succeeded id task = Run [] (Raise e) ∧
      Uninstall.succeeded id task = Run [] (Raise e)) ∧
     (∀ details,
        getpath (result task) ["details"; TYPE_ID_PKG_GROUP; "details"]
          = Return details →
        getitem details "message" = Raise e →
        Install.succeeded id task =
          Run [call_render_failure_message (PStr "Install failed")] (Raise e) ∧
        Uninstall.succeeded id task =
          Run [call_render_failure_message (PStr "Uninstall Failed")]
              (Raise e))).
Proof.
  split; [|intros status Hs Ht; split; [intros Hd|intros details Hd Hm]].
  - revert e. run_succeeded; intros e' [=]; by subst.
  - revert Hs Ht Hd. revert e status. run_succeeded;
      intros e' status ???; simplify_eq; try done; try congruence.
  - revert Hs Ht Hd Hm. revert e status details. run_succeeded;
      intros e' status details ????; simplify_eq; unfold gettext;
      try done; try congruence; split; congruence.
Qed.

(** X17.  On a result document with a truthy status that cannot be read to
    its end: the line 'Install Succeeded' (resp. 'Uninstall Succeeded') is
    rendered before the details are read, so it is out even when the
    resolved entry cannot be read; and when only the deps entry is missing,
    the whole resolved part is out when the lookup raises. *)
Theorem success_report_of_a_malformed_result id task status e :
  status_of task = Return status →
  truthy status = true →
  (group_detail task "resolved" = Raise e →
   Install.succeeded id task =
     Run [call_render_success_message (PStr "Install Succeeded")] (Raise e) ∧
   Uninstall.succeeded id task =
     Run [call_render_success_message (PStr "Uninstall Succeeded")] (Raise e)) ∧
  (∀ resolved,
     group_detail task "resolved" = Return resolved →
     group_detail task "deps" = Raise e →
     (out (Install.succeeded id task) = Raise e ∧
      out (Uninstall.succeeded id task) = Raise e) ∧
     (truthy resolved = true →
      trace (Install.succeeded id task) =
        [call_render_success_message (PStr "Install Succeeded");
         call_render_title (PStr "Installed");
         call_render_document_list resolved columns columns] ∧
      trace (Uninstall.succeeded id task) =
        [call_render_success_message (PStr "Uninstall Succeeded");
         call_render_title (PStr "Uninstalled");
         call_render_document_list resolved columns columns]) ∧
     (truthy resolved = false →
      trace (Install.succeeded id task) =
        [call_render_success_message (PStr "Install Succeeded");
         call_render_success_message
           (PStr "Packages for groups already installed")] ∧
      trace (Uninstall.succeeded id task) =
        [call_render_success_message (PStr "Uninstall Succeeded");
         call_render_success_message
           (PStr "No matching packages found to uninstall")])).
Proof.
  intros Hs Ht. split.
  - intros Hr. revert Hs Ht Hr. revert e status. run_succeeded;
      intros e' status ???; simplify_eq; try done; congruence.
  - intros resolved Hr Hd.
    rewrite (install_succeeded_trace _ _ _ _ Hs Ht Hr),
      (uninstall_succeeded_trace _ _ _ _ Hs Ht Hr), Hd.
    cbn [trace out]. rewrite !app_nil_r.
    split; [done|]. split; intros ->; done.
Qed.
End rendering.

(** ** The section tree *)

Section tree.
Context {builtins : Builtins} {ids : Ids} {srv : Server} {polling : Polling}
  {schedules : ContentSchedules}.


End tree.

(** From here on the commands run in the sample environment, unless another
    server or polling behaviour is named. *)
Import Sample.

(** ** Sample runs *)

Example install_run_sample :
  Install.run kwargs_install =
    Run [call_install (PStr "c1")
           [PDict {[ "type_id" := PStr "package_group";
                     "unit_key" := PDict {[ "name" := PStr "web" ]} ]};
            PDict {[ "type_id" := PStr "package_group";
                     "unit_key" := PDict {[ "name" := PStr "db" ]} ]}]
           {[ "apply" := PBool true; "importkeys" := PBool true;
              "reboot" := PBool true ]};
         call_render_success_message
           (PStr "Install task created with id [t-1]");
         call_get_task (PStr "t-1");
         call_rejected task_running;
         call_postponed task_running;
         call_process (PStr "c1") task_running]
        (Return ()).
Proof. reflexivity. Qed.

Example uninstall_run_rejected_sample :
  Uninstall.run (polling := polling_rejected) kwargs_uninstall =
    Run [call_uninstall (PStr "c1")
           [PDict {[ "type_id" := PStr "package_group";
                     "unit_key" := PDict {[ "name" := PStr "web" ]} ]};
            PDict {[ "type_id" := PStr "package_group";
                     "unit_key" := PDict {[ "name" := PStr "db" ]} ]}]
           {[ "apply" := PBool true; "reboot" := PBool true ]};
         call_render_success_message
           (PStr "Uninstall task created with id[t-1]");
         call_get_task (PStr "t-1");
         call_rejected task_running]
        (Return ()).
Proof. reflexivity. Qed.

(** [Install.run] reads the import-keys argument: on the arguments of an
    uninstall command line, which has no such flag, it stops at the lookup. *)
Example install_run_needs_import_keys :
  Install.run kwargs_uninstall = Run [] (Raise (KeyError "import-keys")).
Proof. reflexivity. Qed.

Example install_server_down_sample :
  Install.install (srv := server_down) (PStr "c1") [] ∅ =
    Run [call_install (PStr "c1") [] ∅]
        (Raise (OtherException "ConnectionException")).
Proof. reflexivity. Qed.

Example install_succeeded_sample :
  Install.succeeded (PStr "c1") task_done =
    Run [call_render_success_message (PStr "Install Succeeded");
         call_render_title (PStr "Installed");
         call_render_document_list (PList [package "httpd"]) columns columns;
         call_render_title (PStr "Installed for dependency");
         call_render_document_list (PList [package "apr"]) columns columns]
        (Return ()).
Proof. reflexivity. Qed.

Example uninstall_succeeded_nothing_sample :
  Uninstall.succeeded (PStr "c1") task_nothing =
    Run [call_render_success_message (PStr "Uninstall Succeeded");
         call_render_success_message
           (PStr "No matching packages found to uninstall")]
        (Return ()).
Proof. reflexivity. Qed.

(** A task without a result yet cannot be reported on. *)
Example install_succeeded_no_result_sample :
  Install.succeeded (PStr "c1") task_running = Run [] (Raise TypeError).
Proof. reflexivity. Qed.

(** A failure report without a message: the first line is out before the
    lookup fails. *)
Example install_succeeded_no_message_sample :
  Install.succeeded (PStr "c1")
    {| task_id := PStr "t-1"; result := report false ∅ |} =
    Run [call_render_failure_message (PStr "Install failed")]
        (Raise (KeyError "message")).
Proof. reflexivity. Qed.

(** ** Where the specification and the code part *)

(** C2, as stated, fails for [Uninstall.run]: whatever the three booleans
    are taken to be, the options bag it sends has no importkeys entry. *)
Lemma uninstall_sends_no_importkeys :
  ¬ ∃ apply import_keys reboot,
      sends_options (Uninstall.run Sample.kwargs_uninstall)
        apply import_keys reboot.
Proof.
  intros (apply & import_keys & reboot & c & u & o & Hreq & _ & Hkeys & _).
  rewrite (uninstall_run_eq Sample.kwargs_uninstall (PStr "c1") (PBool false)
             (PBool true) [PStr "web"; PStr "db"]) in Hreq by reflexivity.
  rewrite uninstall_requests in Hreq. by simplify_eq.
Qed.

(** C3, as stated, fails for the uninstall command: it declares no
    --import-keys flag, so its surface is not the five options. *)
Lemma uninstall_has_no_import_keys_flag :
  (Flag "--import-keys" ∉ surface Uninstall.__init__) ∧
  ¬ (surface Uninstall.__init__ ≡ₚ run_surface).
Proof.
  split.
  - intros Hin. cbn in Hin. split_elem_of; discriminate.
  - intros Hperm. by apply Permutation_length in Hperm.
Qed.

(** C7, as stated, fails when the server does not know the consumer: the
    exception is caught, so the invocation does not raise, yet the only
    calls are the content request and the message to the user, and the task
    status is never fetched. *)
Lemma not_found_skips_status_fetch :
  Install.install (srv := Sample.server_unknown) (PStr "c1") [] ∅ =
    Run [call_install (PStr "c1") [] ∅;
         call_write (PStr "Consumer [c1] not found") "not-found"]
        (Return ()) ∧
  Uninstall.uninstall (srv := Sample.server_unknown) (PStr "c1") [] ∅ =
    Run [call_uninstall (PStr "c1") [] ∅;
         call_write (PStr "Consumer [c1] not found") "not-found"]
        (Return ()) ∧
  ∀ c, c ∈ trace (Install.install (srv := Sample.server_unknown)
                    (PStr "c1") [] ∅) →
       is_get_task c = false.
Proof.
  split; [reflexivity|]. split; [reflexivity|].
  intros c Hin. cbn in Hin. split_elem_of; by subst.
Qed.

(** ** The properties at work on the sample environment *)

(** An unknown consumer is reported; an unreachable server is not caught. *)
Lemma only_NotFoundException_is_caught_witness :
  (out (Install.install (srv := server_unknown) (PStr "c1") [] ∅) = Return () ∧
   last (trace (Install.install (srv := server_unknown) (PStr "c1") [] ∅)) =
     Some (call_write (PStr "Consumer [c1] not found") "not-found")) ∧
  (out (Uninstall.uninstall (srv := server_unknown) (PStr "c1") [] ∅) =
     Return () ∧
   last (trace (Uninstall.uninstall (srv := server_unknown) (PStr "c1") [] ∅)) =
     Some (call_write (PStr "Consumer [c1] not found") "not-found")) ∧
  (out (Install.install (srv := server_down) (PStr "c1") [] ∅) =
     Raise (OtherException "ConnectionException") ∧
   ∀ msg tag,
     call_write msg tag
       ∉ trace (Install.install (srv := server_down) (PStr "c1") [] ∅)).
Proof.
  destruct (only_NotFoundException_is_caught (srv := server_unknown)
              (PStr "c1") [] ∅ NotFoundException) as [Hi Hu].
  destruct (only_NotFoundException_is_caught (srv := server_down)
              (PStr "c1") [] ∅ (OtherException "ConnectionException"))
    as [Hd _].
  split; [|split].
  - apply Hi; [left|]; reflexivity.
  - apply Hu; [left|]; reflexivity.
  - apply Hd; [left; reflexivity|discriminate].
Defined.

Lemma run_options_bag_witness :
  (sends_options (Install.run kwargs_install) true true true ∧
   ∃ units,
     requests (Install.run kwargs_install) =
       [(PStr "c1", units,
         {[ "apply" := PBool true; "importkeys" := PBool true;
            "reboot" := PBool true ]})]) ∧
  (∃ units,
     requests (Uninstall.run kwargs_uninstall) =
       [(PStr "c1", units,
         {[ "apply" := PBool true; "reboot" := PBool true ]})]).
Proof.
  split.
  - apply (run_options_bag kwargs_install (PStr "c1") false true
             [PStr "web"; PStr "db"]); reflexivity.
  - apply (run_options_bag kwargs_uninstall (PStr "c1") false true
             [PStr "web"; PStr "db"]); reflexivity.
Defined.

Lemma run_units_follow_names_witness :
  (∃ units options,
     requests (Install.run kwargs_install) = [(PStr "c1", units, options)] ∧
     length units = 2 ∧
     ∀ i name,
       [PStr "web"; PStr "db"] !! i = Some name →
       units !! i =
         Some (PDict {[ "type_id" := PStr "package_group";
                        "unit_key" := PDict {[ "name" := name ]} ]})) ∧
  (∃ units options,
     requests (Uninstall.run kwargs_uninstall) = [(PStr "c1", units, options)] ∧
     length units = 2 ∧
     ∀ i name,
       [PStr "web"; PStr "db"] !! i = Some name →
       units !! i =
         Some (PDict {[ "type_id" := PStr "package_group";
                        "unit_key" := PDict {[ "name" := name ]} ]})).
Proof.
  destruct (run_units_follow_names kwargs_install (PStr "c1") (PBool false)
              (PBool true) [PStr "web"; PStr "db"]) as [Hi _];
    [reflexivity..|discriminate|].
  destruct (run_units_follow_names kwargs_uninstall (PStr "c1") (PBool false)
              (PBool true) [PStr "web"; PStr "db"]) as [_ Hu];
    [reflexivity..|discriminate|].
  split; [apply (Hi (PBool true)); reflexivity|exact Hu].
Defined.

Lemma succeeded_reports_failure_witness :
  Install.succeeded (PStr "c1") task_failed =
    Run [call_render_failure_message (PStr "Install failed");
         call_render_failure_message (PStr "no such group")] (Return ()) ∧
  Uninstall.succeeded (PStr "c1") task_failed =
    Run [call_render_failure_message (PStr "Uninstall Failed");
         call_render_failure_message (PStr "no such group")] (Return ()).
Proof.
  apply (succeeded_reports_failure (PStr "c1") task_failed (PBool false));
    reflexivity.
Defined.

Lemma succeeded_lists_resolved_witness :
  (∃ rest,
     trace (Install.succeeded (PStr "c1") task_done) =
       [call_render_success_message (PStr "Install Succeeded");
        call_render_title (PStr "Installed");
        call_render_document_list (PList [package "httpd"])
          ["name"; "version"; "arch"; "repoid"]
          ["name"; "version"; "arch"; "repoid"]] ++ rest) ∧
  (∃ rest,
     trace (Uninstall.succeeded (PStr "c1") task_done) =
       [call_render_success_message (PStr "Uninstall Succeeded");
        call_render_title (PStr "Uninstalled");
        call_render_document_list (PList [package "httpd"])
          ["name"; "version"; "arch"; "repoid"]
          ["name"; "version"; "arch"; "repoid"]] ++ rest).
Proof.
  apply (succeeded_lists_resolved (PStr "c1") task_done (PBool true));
    [reflexivity..|discriminate].
Defined.

Lemma status_fetched_once_before_gate_witness :
  fetch_then_gate (polling := polling_rejected)
    (Install.install (polling := polling_rejected) (PStr "c1") [] ∅)
    (call_install (PStr "c1") [] ∅)
    (call_render_success_message (PStr "Install task created with id [t-1]"))
    (PStr "t-1") ∧
  fetch_then_gate (polling := polling_rejected)
    (Uninstall.uninstall (polling := polling_rejected) (PStr "c1") [] ∅)
    (call_uninstall (PStr "c1") [] ∅)
    (call_render_success_message (PStr "Uninstall task created with id[t-1]"))
    (PStr "t-1").
Proof.
  destruct (status_fetched_once_before_gate (polling := polling_rejected)
              (PStr "c1") [] ∅) as [Hi Hu].
  split.
  - apply (Hi {| response_body := task_running |}). reflexivity.
  - apply (Hu {| response_body := task_running |}). reflexivity.
Defined.

Lemma succeeded_nothing_resolved_witness :
  trace (Install.succeeded (PStr "c1") task_nothing) =
    [call_render_success_message (PStr "Install Succeeded");
     call_render_success_message (PStr "Packages for groups already installed")] ∧
  (call_render_title (PStr "Installed")
     ∉ trace (Install.succeeded (PStr "c1") task_nothing)) ∧
  (call_render_title (PStr "Uninstalled")
     ∉ trace (Uninstall.succeeded (PStr "c1") task_nothing)).
Proof.
  destruct (succeeded_nothing_resolved (PStr "c1") task_nothing (PBool true))
    as [(_ & Hi & _) (_ & Hu & _)]; [reflexivity..|].
  split; [reflexivity|]. split; [exact Hi|exact Hu].
Defined.

Lemma succeeded_dependency_section_witness :
  (call_render_title (PStr "Installed for dependency")
     ∈ trace (Install.succeeded (PStr "c1") task_done)) ∧
  (call_render_title (PStr "Uninstalled for dependency")
     ∈ trace (Uninstall.succeeded (PStr "c1") task_done)) ∧
  (call_render_title (PStr "Installed for dependency")
     ∉ trace (Install.succeeded (PStr "c1") task_nothing)).
Proof.
  destruct (succeeded_dependency_section (PStr "c1") task_done (PBool true)
              (PList [package "httpd"]) [package "apr"])
    as [(Hi & _) (Hu & _)]; [reflexivity..|].
  destruct (succeeded_dependency_section (PStr "c1") task_nothing (PBool true)
              (PList []) [])
    as [(Hn & _) _]; [reflexivity..|].
  split; [apply Hi; discriminate|].
  split; [apply Hu; discriminate|].
  intros Hin. by apply Hn in Hin.
Defined.

Lemma created_message_precedes_status_fetch_witness :
  (∃ rest,
     trace (Install.install (polling := polling_rejected) (PStr "c1") [] ∅) =
       call_install (PStr "c1") [] ∅
       :: call_render_success_message
            (PStr "Install task created with id [t-1]")
       :: call_get_task (PStr "t-1")
       :: rest) ∧
  (∃ rest,
     trace (Uninstall.uninstall (polling := polling_rejected) (PStr "c1") [] ∅) =
       call_uninstall (PStr "c1") [] ∅
       :: call_render_success_message
            (PStr "Uninstall task created with id[t-1]")
       :: call_get_task (PStr "t-1")
       :: rest).
Proof.
  destruct (created_message_precedes_status_fetch
              (polling := polling_rejected) (PStr "c1") [] ∅) as [Hi Hu].
  split.
  - apply (Hi {| response_body := task_running |}). reflexivity.
  - apply (Hu {| response_body := task_running |}). reflexivity.
Defined.

(** ** The further properties at work on the sample environment *)

Lemma run_missing_argument_witness :
  Install.run kwargs_uninstall = Run [] (Raise (KeyError "import-keys")) ∧
  Uninstall.run (delete "reboot" kwargs_uninstall) =
    Run [] (Raise (KeyError "reboot")).
Proof.
  split.
  - apply (proj1 (run_missing_argument kwargs_uninstall "import-keys")).
    reflexivity.
  - apply (proj2 (run_missing_argument (delete "reboot" kwargs_uninstall)
                    "reboot")).
    reflexivity.
Defined.

Lemma run_name_not_iterable_witness :
  Install.run (<[ "name" := PNone ]> kwargs_install) =
    Run [] (Raise TypeError) ∧
  Uninstall.run (<[ "name" := PNone ]> kwargs_install) =
    Run [] (Raise TypeError).
Proof.
  destruct (run_name_not_iterable (<[ "name" := PNone ]> kwargs_install) PNone)
    as [Hi Hu]; [reflexivity|by left|].
  split; [apply Hi|apply Hu]; reflexivity.
Defined.

Lemma run_string_name_is_split_witness :
  (∃ consumer_id units options,
     requests (Install.run (<[ "name" := PStr "db" ]> kwargs_install)) =
       [(consumer_id, units, options)] ∧
     length units = 2 ∧
     units !! 1 = Some (unit_descriptor (PStr "b"))) ∧
  (∃ consumer_id units options,
     requests (Uninstall.run (<[ "name" := PStr "db" ]> kwargs_install)) =
       [(consumer_id, units, options)] ∧
     length units = 2 ∧
     units !! 1 = Some (unit_descriptor (PStr "b"))).
Proof.
  destruct (run_string_name_is_split (<[ "name" := PStr "db" ]> kwargs_install)
              "db") as [Hi Hu]; [reflexivity|].
  split.
  - destruct Hi as (c & u & o & Hreq & Hlen & Hunits); [reflexivity|].
    exists c, u, o. split; [exact Hreq|]. split; [exact Hlen|].
    apply Hunits. reflexivity.
  - destruct Hu as (c & u & o & Hreq & Hlen & Hunits); [reflexivity|].
    exists c, u, o. split; [exact Hreq|]. split; [exact Hlen|].
    apply Hunits. reflexivity.
Defined.


Lemma run_reads_only_its_arguments_witness :
  Uninstall.run kwargs_install = Uninstall.run kwargs_uninstall.
Proof.
  apply (proj2 (run_reads_only_its_arguments kwargs_install kwargs_uninstall)).
  intros key Hin. unfold uninstall_keys in Hin.
  repeat (apply elem_of_cons in Hin as [->|Hin]; [reflexivity|]).
  by apply elem_of_nil in Hin.
Defined.

Lemma declared_options_are_the_arguments_read_witness :
  Forall (λ o, is_Some (kwargs_install !! kwarg_key (opt_name o)))
    (cmd_options Install.__init__) ∧
  Forall (λ o, is_Some (kwargs_uninstall !! kwarg_key (opt_name o)))
    (cmd_options Uninstall.__init__).
Proof.
  split; apply Forall_forall.
  - apply (proj1 (declared_options_are_the_arguments_read kwargs_install)).
    reflexivity.
  - apply (proj2 (declared_options_are_the_arguments_read kwargs_uninstall)).
    reflexivity.
Defined.

Lemma run_units_are_group_descriptors_witness :
  Forall (λ unit, ∃ name, unit = unit_descriptor name)
    [unit_descriptor (PStr "web"); unit_descriptor (PStr "db")].
Proof.
  destruct (run_units_are_group_descriptors kwargs_install) as [Hi _].
  destruct (Hi (PStr "c1")
              [unit_descriptor (PStr "web"); unit_descriptor (PStr "db")]
              {[ "apply" := PBool true; "importkeys" := PBool true;
                 "reboot" := PBool true ]}) as [Hunits _].
  - exact (list_elem_of_here _ []).
  - apply Forall_forall. exact Hunits.
Defined.

Lemma not_found_message_needs_NotFoundException_witness :
  call_raises (srv := server_unknown)
    (@install_reply server_unknown (PStr "c1") [] ∅)
    (PStr "c1") NotFoundException ∧
  call_raises (srv := server_unknown)
    (@uninstall_reply server_unknown (PStr "c1") [] ∅)
    (PStr "c1") NotFoundException.
Proof.
  destruct (not_found_message_needs_NotFoundException (srv := server_unknown)
              (PStr "c1") [] ∅ (PStr "Consumer [c1] not found") "not-found")
    as [Hi Hu].
  split.
  - destruct Hi as [Hraise _]; [|exact Hraise].
    apply list_elem_of_further, list_elem_of_here.
  - destruct Hu as [Hraise _]; [|exact Hraise].
    apply list_elem_of_further, list_elem_of_here.
Defined.

Lemma process_runs_iff_task_is_accepted_witness :
  (call_process (PStr "c1") task_running
     ∈ trace (Install.install (PStr "c1") [] ∅)) ∧
  ¬ (call_process (PStr "c1") task_running
       ∈ trace (Install.install (polling := polling_rejected) (PStr "c1") [] ∅)).
Proof.
  split.
  - apply (proj1 (process_runs_iff_task_is_accepted (PStr "c1") [] ∅
                    (PStr "c1") task_running)).
    exists {| response_body := task_running |},
           {| response_body := task_running |}.
    repeat split; reflexivity.
  - intros Hin.
    apply (proj1 (process_runs_iff_task_is_accepted
                    (polling := polling_rejected) (PStr "c1") [] ∅
                    (PStr "c1") task_running)) in Hin
      as (r & r' & _ & _ & Hrejected & _).
    discriminate Hrejected.
Defined.

Lemma accepted_task_is_processed_witness :
  Install.install (PStr "c1") [] ∅ =
    Run [call_install (PStr "c1") [] ∅;
         call_render_success_message
           (PStr "Install task created with id [t-1]");
         call_get_task (PStr "t-1");
         call_rejected task_running;
         call_postponed task_running;
         call_process (PStr "c1") task_running]
        (Return ()) ∧
  Uninstall.uninstall (PStr "c1") [] ∅ =
    Run [call_uninstall (PStr "c1") [] ∅;
         call_render_success_message
           (PStr "Uninstall task created with id[t-1]");
         call_get_task (PStr "t-1");
         call_rejected task_running;
         call_postponed task_running;
         call_process (PStr "c1") task_running]
        (Return ()).
Proof.
  destruct (accepted_task_is_processed (PStr "c1") [] ∅
              {| response_body := task_running |}
              {| response_body := task_running |}) as [Hi Hu];
    [reflexivity..|].
  split; [apply Hi|apply Hu]; reflexivity.
Defined.

Lemma tables_show_packages_of_a_successful_task_witness :
  truthy (PList [package "apr"]) = true ∧
  (∃ status, status_of task_done = Return status ∧ truthy status = true) ∧
  (group_detail task_done "resolved" = Return (PList [package "apr"]) ∨
   group_detail task_done "deps" = Return (PList [package "apr"])).
Proof.
  destruct (tables_show_packages_of_a_successful_task (PStr "c1") task_done
              (PList [package "apr"]) columns columns)
    as (Htruthy & _ & _ & Hstatus & Horigin).
  - left. repeat first [apply list_elem_of_here | apply list_elem_of_further].
  - split; [exact Htruthy|]. split; [exact Hstatus|exact Horigin].
Defined.

Lemma failure_report_of_a_malformed_result_witness :
  (Install.succeeded (PStr "c1") task_running = Run [] (Raise TypeError) ∧
   Uninstall.succeeded (PStr "c1") task_running = Run [] (Raise TypeError)) ∧
  (Install.succeeded (PStr "c1")
     {| task_id := PStr "t-1"; result := report false ∅ |} =
     Run [call_render_failure_message (PStr "Install failed")]
         (Raise (KeyError "message")) ∧
   Uninstall.succeeded (PStr "c1")
     {| task_id := PStr "t-1"; result := report false ∅ |} =
     Run [call_render_failure_message (PStr "Uninstall Failed")]
         (Raise (KeyError "message"))).
Proof.
  split.
  - apply (proj1 (failure_report_of_a_malformed_result (PStr "c1")
                    task_running TypeError)).
    reflexivity.
  - destruct (proj2 (failure_report_of_a_malformed_result (PStr "c1")
                       {| task_id := PStr "t-1"; result := report false ∅ |}
                       (KeyError "message"))
                (PBool false) eq_refl eq_refl) as [_ Hmessage].
    apply (Hmessage (PDict ∅)); reflexivity.
Defined.

Lemma success_report_of_a_malformed_result_witness :
  Install.succeeded (PStr "c1")
    {| task_id := PStr "t-1"; result := report true ∅ |} =
    Run [call_render_success_message (PStr "Install Succeeded")]
        (Raise (KeyError "resolved")) ∧
  Uninstall.succeeded (PStr "c1")
    {| task_id := PStr "t-1"; result := report true ∅ |} =
    Run [call_render_success_message (PStr "Uninstall Succeeded")]
        (Raise (KeyError "resolved")).
Proof.
  destruct (success_report_of_a_malformed_result (PStr "c1")
              {| task_id := PStr "t-1"; result := report true ∅ |}
              (PBool true) (KeyError "resolved")) as [Hresolved _];
    [reflexivity..|].
  apply Hresolved. reflexivity.
Defined.
